(** * Session-authenticated credential and password-reset lifecycle

    A shallow embedding of [auth.py] (the FastAPI router under [/auth]),
    with the two tables of [models.py], the unit of work of the SQLAlchemy
    session handed out by [database.get_db], and the signed-cookie session
    that [main.py] installs with Starlette's [SessionMiddleware].

    Conventions of the embedding.
    - A Python [str] is a Rocq [string] holding its UTF-8 encoding, so
      [encode]/[decode] are the identity; [len] counts the characters,
      not the bytes.
    - A [datetime] is an instant on the UTC axis, in microseconds, as [Z].
      [datetime.utcnow()] and [datetime.now(timezone.utc)] read the clock
      of the Python process (field [now] of [Env]); the server default
      [func.now()] of the [created_at] columns reads the clock of the
      database (field [db_now]). The database session is taken to run
      in UTC.
    - A UUID is its 128-bit integer, as [N]; [str(uuid)] is [uuid_str].
    - What a handler cannot compute from its arguments (the clock, the
      salt of [bcrypt.gensalt()], the value of [uuid.uuid4()], the draw of
      [random.randint], the clock of the database) is an explicit input,
      the record [Env].
    - [bcrypt] is an external library: the class [Bcrypt] is its interface
      ([hashpw], [checkpw]), both total. *)

From Stdlib Require Import ZArith NArith String Ascii List Bool Lia.
From stdpp Require Import base option list gmap strings.
Import ListNotations.
Local Open Scope string_scope.

(** ** Python values *)

Definition datetime := Z.
Bind Scope Z_scope with datetime.

(** [timedelta(minutes=m)], in microseconds. *)
Definition timedelta_minutes (m : Z) : Z := (m * 60 * 1000000)%Z.

Definition hex_digit (n : N) : ascii :=
  match n with
  | 0%N => "0" | 1%N => "1" | 2%N => "2" | 3%N => "3"
  | 4%N => "4" | 5%N => "5" | 6%N => "6" | 7%N => "7"
  | 8%N => "8" | 9%N => "9" | 10%N => "a" | 11%N => "b"
  | 12%N => "c" | 13%N => "d" | 14%N => "e" | _ => "f"
  end%char.

(** The [width] low hexadecimal digits of [n], most significant first. *)
Fixpoint hex (width : nat) (n : N) : string :=
  match width with
  | O => ""
  | S w => hex w (N.shiftr n 4) ++ String (hex_digit (N.land n 15)) ""
  end.

(** The value of a hexadecimal digit, to read [hex_digit] back. *)
Definition hex_value (c : ascii) : N :=
  let n := N.of_nat (nat_of_ascii c) in
  if (n <? 58)%N then (n - 48)%N else (n - 87)%N.

(** [str(u)] for a [uuid.UUID]: the 8-4-4-4-12 lower-case form. *)
Definition uuid_str (u : N) : string :=
  hex 8 (N.shiftr u 96) ++ "-" ++ hex 4 (N.shiftr u 80) ++ "-" ++
  hex 4 (N.shiftr u 64) ++ "-" ++ hex 4 (N.shiftr u 48) ++ "-" ++ hex 12 u.

Definition digit (d : Z) : ascii := ascii_of_nat (48 + Z.to_nat d).

(** Decimal digits of a non-negative [n], pushed in front of [acc]. *)
Fixpoint digits (fuel : nat) (n : Z) (acc : string) : string :=
  match fuel with
  | O => acc
  | S f =>
      let acc' := String (digit (n mod 10)) acc in
      if (n / 10 =? 0)%Z then acc' else digits f (n / 10) acc'
  end.

(** [str(n)] for an [int]. A number has no more decimal than binary
    digits, which bounds the recursion. *)
Definition str_int (n : Z) : string :=
  if (n <? 0)%Z
  then String "-" (digits (S (Z.to_nat (Z.log2 (- n)))) (- n) "")
  else digits (S (Z.to_nat (Z.log2 n))) n "".

(** [random.randint(a, b)]: an integer of [a..b], chosen by the draw. *)
Definition randint (a b : Z) (draw : Z) : Z := (a + draw mod (b - a + 1))%Z.

(** A byte of the form 10xxxxxx continues a character of the encoding. *)
Definition continuation (c : ascii) : bool :=
  (128 <=? nat_of_ascii c)%nat && (nat_of_ascii c <? 192)%nat.

(** [len(s)] for a [str]: the number of characters, each of them one
    leading byte followed by its continuation bytes. *)
Fixpoint len (s : string) : nat :=
  match s with
  | "" => 0%nat
  | String c rest => if continuation c then len rest else S (len rest)
  end.

(** Truth value of [session.get(k)]: [None] and the empty string are false. *)
Definition truthy (v : option string) : bool :=
  match v with
  | None => false
  | Some s => negb (String.eqb s "")
  end.

Definition is_digit (c : ascii) : bool :=
  (48 <=? nat_of_ascii c)%nat && (nat_of_ascii c <=? 57)%nat.

Fixpoint all_digits (s : string) : bool :=
  match s with
  | "" => true
  | String c rest => is_digit c && all_digits rest
  end.

(** The six characters of [str(n)] for [n] of six digits. *)
Definition six_digits (n : Z) : string :=
  String (digit (n / 100000))
    (String (digit (n / 10000 mod 10))
       (String (digit (n / 1000 mod 10))
          (String (digit (n / 100 mod 10))
             (String (digit (n / 10 mod 10))
                (String (digit (n mod 10)) ""))))).

(** ** models.py *)

Module User.
Record t := mk {
  user_id : N;
  email : string;
  password : string;
  role : string;
  is_active : bool;
  last_login : option datetime;
  created_at : datetime
}.

Definition set_password (h : string) (u : t) : t :=
  mk (user_id u) (email u) h (role u) (is_active u) (last_login u) (created_at u).

Definition set_last_login (d : datetime) (u : t) : t :=
  mk (user_id u) (email u) (password u) (role u) (is_active u) (Some d) (created_at u).
End User.

Module PasswordResetCode.
Record t := mk {
  code_id : string;
  email : string;
  code : string;
  expires_at : datetime;
  created_at : datetime
}.
End PasswordResetCode.

(** The two tables, rows in storage order. *)
Record Database := mkDatabase {
  users : list User.t;
  password_reset_codes : list PasswordResetCode.t
}.

(** ** The external interfaces *)

Class Bcrypt := {
  (** [bcrypt.hashpw(password, salt)] *)
  hashpw : string -> string -> string;
  (** [bcrypt.checkpw(password, hashed)] *)
  checkpw : string -> string -> bool
}.

Record Env := mkEnv {
  now : datetime;
  gensalt : string;
  uuid4 : N;
  draw : Z;
  db_now : datetime
}.

(** A call of [send_email_sync(to, subject, body)] handed to
    [BackgroundTasks]. *)
Record Mail := mkMail { mail_to : string; subject : string; body : string }.

(** ** Exceptions, and the state a handler runs in *)

Inductive Exn :=
| HTTPException (status_code : Z) (detail : string)
| UnmappedInstanceError
| IntegrityError
| InvalidRequestError.

(** [stored] is what is committed; [loaded] is the session's view of the
    rows, with the attribute changes and deletions not yet flushed;
    [pending] holds the objects passed to [db.add]. [session] is
    [request.session]; [background] the tasks added so far. *)
Record Ctx := mkCtx {
  stored : Database;
  loaded : Database;
  pending : Database;
  session : gmap string string;
  background : list Mail
}.

Inductive res (A : Type) :=
| Ret (a : A)
| Raise (e : Exn).
Arguments Ret {A} a.
Arguments Raise {A} e.

Definition M (A : Type) := Ctx -> res A * Ctx.

Definition ret {A} (a : A) : M A := fun c => (Ret a, c).

Definition raise {A} (e : Exn) : M A := fun c => (Raise e, c).

Definition bind {A B} (m : M A) (k : A -> M B) : M B :=
  fun c =>
    match m c with
    | (Ret a, c') => k a c'
    | (Raise e, c') => (Raise e, c')
    end.

Notation "'let!' x ':=' m 'in' k" := (bind m (fun x => k))
  (at level 10, x name, m at level 100, k at level 200).
Notation "'run!' m 'in' k" := (bind m (fun _ => k))
  (at level 10, m at level 100, k at level 200).

(** ** The SQLAlchemy session *)

(** [.filter(p).first()] on the rows of [users]. *)
Definition user_first (p : User.t -> bool) (db : Database) : option User.t :=
  head (List.filter p (users db)).

(** [db.query(User).filter(p).first()] *)
Definition query_user_first (p : User.t -> bool) : M (option User.t) :=
  fun c => (Ret (user_first p (loaded c)), c).

Fixpoint insert_desc (r : PasswordResetCode.t) (l : list PasswordResetCode.t)
  : list PasswordResetCode.t :=
  match l with
  | [] => [r]
  | x :: l' =>
      if (PasswordResetCode.created_at x <=? PasswordResetCode.created_at r)%Z
      then r :: x :: l'
      else x :: insert_desc r l'
  end.

(** [.order_by(PasswordResetCode.created_at.desc())]; rows created at the
    same instant keep their storage order. *)
Definition order_by_created_at_desc (l : list PasswordResetCode.t)
  : list PasswordResetCode.t :=
  fold_right insert_desc [] l.

(** [.filter(p).order_by(created_at.desc()).first()] on the rows of
    [password_reset_codes]. *)
Definition code_latest (p : PasswordResetCode.t -> bool) (db : Database)
  : option PasswordResetCode.t :=
  head (order_by_created_at_desc (List.filter p (password_reset_codes db))).

(** [db.query(PasswordResetCode).filter(p).order_by(created_at.desc()).first()] *)
Definition query_code_latest (p : PasswordResetCode.t -> bool)
  : M (option PasswordResetCode.t) :=
  fun c => (Ret (code_latest p (loaded c)), c).

Definition with_loaded (f : Database -> Database) (c : Ctx) : Ctx :=
  mkCtx (stored c) (f (loaded c)) (pending c) (session c) (background c).

Definition with_pending (f : Database -> Database) (c : Ctx) : Ctx :=
  mkCtx (stored c) (loaded c) (f (pending c)) (session c) (background c).

Definition with_session (f : gmap string string -> gmap string string) (c : Ctx) : Ctx :=
  mkCtx (stored c) (loaded c) (pending c) (f (session c)) (background c).

(** UPDATE users ... WHERE user_id = pk *)
Definition update_user (pk : N) (f : User.t -> User.t) (db : Database) : Database :=
  mkDatabase
    (map (fun u => if N.eqb (User.user_id u) pk then f u else u) (users db))
    (password_reset_codes db).

(** DELETE FROM password_reset_codes WHERE code_id = pk *)
Definition delete_code (pk : string) (db : Database) : Database :=
  mkDatabase
    (users db)
    (List.filter (fun r => negb (String.eqb (PasswordResetCode.code_id r) pk))
       (password_reset_codes db)).

(** An attribute assignment [user.x = v] on a loaded row. *)
Definition setattr (user : User.t) (f : User.t -> User.t) : M User.t :=
  fun c => (Ret (f user), with_loaded (update_user (User.user_id user) f) c).

(** [db.add(user)] *)
Definition db_add_user (user : User.t) : M unit :=
  fun c => (Ret tt, with_pending (fun p => mkDatabase (users p ++ [user]) (password_reset_codes p)) c).

(** [db.add(entry)] *)
Definition db_add_code (entry : PasswordResetCode.t) : M unit :=
  fun c => (Ret tt, with_pending (fun p => mkDatabase (users p) (password_reset_codes p ++ [entry])) c).

(** [db.delete(record)]: an object that is not a mapped instance, [None]
    among them, is refused. *)
Definition db_delete (record : option PasswordResetCode.t) : M unit :=
  fun c =>
    match record with
    | None => (Raise UnmappedInstanceError, c)
    | Some r => (Ret tt, with_loaded (delete_code (PasswordResetCode.code_id r)) c)
    end.

(** The constraints of [models.py]: [user_id] is the primary key of
    [users] and [email] is unique; [code_id] is the primary key of
    [password_reset_codes]. *)
Definition user_insertable (db : Database) (u : User.t) : bool :=
  negb (existsb (fun v => N.eqb (User.user_id v) (User.user_id u)
                          || String.eqb (User.email v) (User.email u)) (users db)).

Definition code_insertable (db : Database) (r : PasswordResetCode.t) : bool :=
  negb (existsb (fun x => String.eqb (PasswordResetCode.code_id x) (PasswordResetCode.code_id r))
          (password_reset_codes db)).

Fixpoint flush_users (new : list User.t) (db : Database) : option Database :=
  match new with
  | [] => Some db
  | u :: new' =>
      if user_insertable db u
      then flush_users new' (mkDatabase (users db ++ [u]) (password_reset_codes db))
      else None
  end.

Fixpoint flush_codes (new : list PasswordResetCode.t) (db : Database) : option Database :=
  match new with
  | [] => Some db
  | r :: new' =>
      if code_insertable db r
      then flush_codes new' (mkDatabase (users db) (password_reset_codes db ++ [r]))
      else None
  end.

Definition flush (new db : Database) : option Database :=
  match flush_users (users new) db with
  | Some db' => flush_codes (password_reset_codes new) db'
  | None => None
  end.

Definition no_rows : Database := mkDatabase [] [].

(** [db.commit()]: the pending rows are inserted and the changes become
    the stored state; a violated constraint rolls the session back. *)
Definition db_commit : M unit :=
  fun c =>
    match flush (pending c) (loaded c) with
    | Some db' => (Ret tt, mkCtx db' db' no_rows (session c) (background c))
    | None => (Raise IntegrityError,
               mkCtx (stored c) (stored c) no_rows (session c) (background c))
    end.

(** [db.refresh(user)]: the row is read back by primary key. *)
Definition db_refresh (user : User.t) : M User.t :=
  fun c =>
    match user_first (fun v => N.eqb (User.user_id v) (User.user_id user)) (loaded c) with
    | Some v => (Ret v, c)
    | None => (Raise InvalidRequestError, c)
    end.

(** ** [request.session] and [BackgroundTasks] *)

Definition session_get (k : string) : M (option string) :=
  fun c => (Ret (session c !! k), c).

Definition session_set (k v : string) : M unit :=
  fun c => (Ret tt, with_session (fun s => <[k := v]> s) c).

Definition session_clear : M unit :=
  fun c => (Ret tt, with_session (fun _ => ∅) c).

Definition add_task (m : Mail) : M unit :=
  fun c => (Ret tt, mkCtx (stored c) (loaded c) (pending c) (session c) (background c ++ [m])).

(** ** Serving one request *)

Inductive json :=
| JBool (b : bool)
| JStr (s : string)
| JUuid (u : N)
| JTime (d : datetime)
| JNull.

Inductive Response :=
| OK (content : list (string * json))
| Failed (status_code : Z) (detail : string).

Record Outcome := mkOutcome {
  response : Response;
  db_after : Database;
  session_after : gmap string string;
  mails : list Mail
}.

(** One request against the stored rows [db] with the cookie session [s].
    [get_db] closes the SQLAlchemy session whatever happens, so only what
    was committed remains. An [HTTPException] is turned into its response
    inside the session middleware, which then writes [request.session]
    back to the cookie; any other exception becomes a bare 500 outside of
    it and the cookie stays as it was. Background tasks run after a
    response of the handler itself. *)
Definition serve (h : M (list (string * json))) (db : Database)
    (s : gmap string string) : Outcome :=
  match h (mkCtx db db no_rows s []) with
  | (Ret content, c) => mkOutcome (OK content) (stored c) (session c) (background c)
  | (Raise (HTTPException st d), c) => mkOutcome (Failed st d) (stored c) (session c) []
  | (Raise _, c) => mkOutcome (Failed 500 "Internal Server Error") (stored c) s []
  end.

(** ** auth.py: the request models *)

Module RegisterRequest.
Record t := mk { email : string; password : string }.
End RegisterRequest.

Module LoginRequest.
Record t := mk { email : string; password : string }.
End LoginRequest.

Module ChangePasswordRequest.
Record t := mk { current_password : string; new_password : string }.
End ChangePasswordRequest.

Module ResetPasswordRequest.
Record t := mk { email : string }.
End ResetPasswordRequest.

Module ResetPasswordConfirm.
Record t := mk { email : string; new_password : string }.
End ResetPasswordConfirm.

Module ResetPasswordVerify.
Record t := mk { email : string; code : string }.
End ResetPasswordVerify.

(** ** auth.py: the handlers *)

(** [User.email == email] *)
Definition email_is (email : string) (u : User.t) : bool :=
  String.eqb (User.email u) email.

(** [User.user_id == user_id], the right-hand side being the string kept
    in the session. *)
Definition user_id_is (user_id : option string) (u : User.t) : bool :=
  match user_id with
  | Some s => String.eqb (uuid_str (User.user_id u)) s
  | None => false
  end.

(** [PasswordResetCode.email == email] *)
Definition code_for (email : string) (r : PasswordResetCode.t) : bool :=
  String.eqb (PasswordResetCode.email r) email.

(** [PasswordResetCode.email == email, PasswordResetCode.code == code] *)
Definition code_is (email code : string) (r : PasswordResetCode.t) : bool :=
  String.eqb (PasswordResetCode.email r) email
  && String.eqb (PasswordResetCode.code r) code.

Definition newline : string := String (ascii_of_nat 10) "".

Section Handlers.
Context `{Bcrypt}.

Definition check_email (email : string) : M (list (string * json)) :=
  let! exists_ := query_user_first (email_is email) in
  ret [("available", JBool (match exists_ with None => true | Some _ => false end));
       ("message", JStr (match exists_ with
                         | None => "사용 가능한 이메일입니다."
                         | Some _ => "이미 사용 중인 이메일입니다."
                         end))].

Definition register (env : Env) (data : RegisterRequest.t) : M (list (string * json)) :=
  let! exists_ := query_user_first (email_is (RegisterRequest.email data)) in
  match exists_ with
  | Some _ => raise (HTTPException 400 "이미 존재하는 이메일입니다.")
  | None =>
      if (len (RegisterRequest.password data) <? 8)%nat
      then raise (HTTPException 400 "비밀번호는 8자 이상이어야 합니다.")
      else
        let hashed_pw := hashpw (RegisterRequest.password data) (gensalt env) in
        let user := User.mk (uuid4 env) (RegisterRequest.email data) hashed_pw
                      "user" true None (db_now env) in
        run! db_add_user user in
        run! db_commit in
        let! user := db_refresh user in
        ret [("success", JBool true); ("message", JStr "회원가입 완료");
             ("user_id", JUuid (User.user_id user))]
  end.

Definition login (env : Env) (data : LoginRequest.t) : M (list (string * json)) :=
  let email := LoginRequest.email data in
  let password := LoginRequest.password data in
  let! user := query_user_first (email_is email) in
  match user with
  | None => raise (HTTPException 401 "이메일 또는 비밀번호가 올바르지 않습니다.")
  | Some user =>
      if negb (checkpw password (User.password user))
      then raise (HTTPException 401 "이메일 또는 비밀번호가 올바르지 않습니다.")
      else
        run! session_set "user_id" (uuid_str (User.user_id user)) in
        run! session_set "email" (User.email user) in
        let! user := setattr user (User.set_last_login (now env)) in
        run! db_commit in
        ret [("success", JBool true); ("message", JStr "로그인 성공")]
  end.

Definition logout : M (list (string * json)) :=
  run! session_clear in
  ret [("success", JBool true); ("message", JStr "로그아웃 완료")].

Definition me : M (list (string * json)) :=
  let! user_id := session_get "user_id" in
  if negb (truthy user_id)
  then raise (HTTPException 401 "로그인이 필요합니다.")
  else
    let! user := query_user_first (user_id_is user_id) in
    match user with
    | None =>
        run! session_clear in
        raise (HTTPException 401 "유효하지 않은 사용자")
    | Some user =>
        ret [("user_id", JUuid (User.user_id user));
             ("email", JStr (User.email user));
             ("role", JStr (User.role user));
             ("is_active", JBool (User.is_active user));
             ("last_login", match User.last_login user with
                            | Some d => JTime d
                            | None => JNull
                            end);
             ("created_at", JTime (User.created_at user))]
    end.

Definition change_password (env : Env) (data : ChangePasswordRequest.t)
  : M (list (string * json)) :=
  let! user_id := session_get "user_id" in
  if negb (truthy user_id)
  then raise (HTTPException 401 "로그인이 필요합니다.")
  else
    let! user := query_user_first (user_id_is user_id) in
    match user with
    | None => raise (HTTPException 404 "사용자를 찾을 수 없습니다.")
    | Some user =>
        if negb (checkpw (ChangePasswordRequest.current_password data) (User.password user))
        then raise (HTTPException 400 "현재 비밀번호가 일치하지 않습니다.")
        else if (len (ChangePasswordRequest.new_password data) <? 8)%nat
        then raise (HTTPException 400 "새 비밀번호는 8자 이상이어야 합니다.")
        else
          let hashed_pw := hashpw (ChangePasswordRequest.new_password data) (gensalt env) in
          let! user := setattr user (User.set_password hashed_pw) in
          run! db_commit in
          ret [("success", JBool true); ("message", JStr "비밀번호가 변경되었습니다.")]
    end.

Definition password_reset_request (env : Env) (data : ResetPasswordRequest.t)
  : M (list (string * json)) :=
  let! user := query_user_first (email_is (ResetPasswordRequest.email data)) in
  match user with
  | None => raise (HTTPException 404 "등록되지 않은 이메일입니다.")
  | Some _ =>
      let code := str_int (randint 100000 999999 (draw env)) in
      let expires := (now env + timedelta_minutes 5)%Z in
      let entry := PasswordResetCode.mk (uuid_str (uuid4 env))
                     (ResetPasswordRequest.email data) code expires (db_now env) in
      run! db_add_code entry in
      run! db_commit in
      run! add_task (mkMail (ResetPasswordRequest.email data)
                       "[서비스명] 비밀번호 재설정 인증코드"
                       ("인증코드: " ++ code ++ newline ++ "5분 내에 입력하세요.")) in
      ret [("success", JBool true);
           ("message", JStr "인증코드가 이메일로 발송되었습니다.")]
  end.

Definition password_reset_verify_code (env : Env) (data : ResetPasswordVerify.t)
  : M (list (string * json)) :=
  let! record :=
    query_code_latest
      (code_is (ResetPasswordVerify.email data) (ResetPasswordVerify.code data)) in
  match record with
  | None => raise (HTTPException 400 "잘못된 인증코드입니다.")
  | Some record =>
      if (PasswordResetCode.expires_at record <? now env)%Z
      then raise (HTTPException 400 "인증코드가 만료되었습니다.")
      else ret [("success", JBool true);
                ("message", JStr "인증코드가 확인되었습니다.")]
  end.

Definition password_reset_confirm (env : Env) (data : ResetPasswordConfirm.t)
  : M (list (string * json)) :=
  let! record := query_code_latest (code_for (ResetPasswordConfirm.email data)) in
  let! user := query_user_first (email_is (ResetPasswordConfirm.email data)) in
  match user with
  | None => raise (HTTPException 404 "사용자를 찾을 수 없습니다.")
  | Some user =>
      if (len (ResetPasswordConfirm.new_password data) <? 8)%nat
      then raise (HTTPException 400 "비밀번호는 8자 이상이어야 합니다.")
      else
        let hashed_pw := hashpw (ResetPasswordConfirm.new_password data) (gensalt env) in
        let! user := setattr user (User.set_password hashed_pw) in
        run! db_delete record in
        run! db_commit in
        ret [("success", JBool true);
             ("message", JStr "비밀번호가 성공적으로 재설정되었습니다.")]
  end.

(** Names for what the handlers build, used in the statements below. *)

(** The row that [register] adds. *)
Definition new_user (env : Env) (data : RegisterRequest.t) : User.t :=
  User.mk (uuid4 env) (RegisterRequest.email data)
    (hashpw (RegisterRequest.password data) (gensalt env)) "user" true None (db_now env).

(** The row that [password_reset_request] adds. *)
Definition new_code (env : Env) (data : ResetPasswordRequest.t) : PasswordResetCode.t :=
  PasswordResetCode.mk (uuid_str (uuid4 env)) (ResetPasswordRequest.email data)
    (str_int (randint 100000 999999 (draw env)))
    (now env + timedelta_minutes 5)%Z (db_now env).

(** The mail that it schedules. *)
Definition code_mail (env : Env) (data : ResetPasswordRequest.t) : Mail :=
  mkMail (ResetPasswordRequest.email data) "[서비스명] 비밀번호 재설정 인증코드"
    ("인증코드: " ++ str_int (randint 100000 999999 (draw env)) ++ newline
     ++ "5분 내에 입력하세요.").

(** The stored rows after a confirm that went through for account [u] with
    [r] the record found. *)
Definition after_confirm (env : Env) (data : ResetPasswordConfirm.t)
    (u : User.t) (r : PasswordResetCode.t) (db : Database) : Database :=
  delete_code (PasswordResetCode.code_id r)
    (update_user (User.user_id u)
       (User.set_password (hashpw (ResetPasswordConfirm.new_password data) (gensalt env)))
       db).
End Handlers.

(** ** The router *)

Inductive Call :=
| CheckEmail (email : string)
| Register (data : RegisterRequest.t)
| Login (data : LoginRequest.t)
| Logout
| Me
| ChangePassword (data : ChangePasswordRequest.t)
| PasswordResetRequest (data : ResetPasswordRequest.t)
| PasswordResetVerifyCode (data : ResetPasswordVerify.t)
| PasswordResetConfirm (data : ResetPasswordConfirm.t).

(** The routes of [router]. *)
Definition route `{Bcrypt} (env : Env) (call : Call) : M (list (string * json)) :=
  match call with
  | CheckEmail email => check_email email
  | Register data => register env data
  | Login data => login env data
  | Logout => logout
  | Me => me
  | ChangePassword data => change_password env data
  | PasswordResetRequest data => password_reset_request env data
  | PasswordResetVerifyCode data => password_reset_verify_code env data
  | PasswordResetConfirm data => password_reset_confirm env data
  end.

(** ** The messages of the responses *)

Definition invalid_credentials : string :=
  "이메일 또는 비밀번호가 올바르지 않습니다.".
Definition login_required : string := "로그인이 필요합니다.".
Definition invalid_user : string := "유효하지 않은 사용자".
Definition email_taken : string := "이미 존재하는 이메일입니다.".
Definition weak_password : string := "비밀번호는 8자 이상이어야 합니다.".
Definition user_not_found : string := "사용자를 찾을 수 없습니다.".
Definition internal_server_error : string := "Internal Server Error".
Definition invalid_code : string := "잘못된 인증코드입니다.".
Definition code_expired : string := "인증코드가 만료되었습니다.".
Definition code_verified : list (string * json) :=
  [("success", JBool true); ("message", JStr "인증코드가 확인되었습니다.")].
Definition email_not_registered : string := "등록되지 않은 이메일입니다.".
Definition code_sent : list (string * json) :=
  [("success", JBool true); ("message", JStr "인증코드가 이메일로 발송되었습니다.")].

(** ** The constraints of the tables *)

(** Primary keys and the unique email. *)
Definition constraints (db : Database) : Prop :=
  List.NoDup (map User.user_id (users db)) /\
  List.NoDup (map User.email (users db)) /\
  List.NoDup (map PasswordResetCode.code_id (password_reset_codes db)).

(** The stored rows that requests lead to, from empty tables. *)
Inductive reachable `{Bcrypt} : Database -> Prop :=
| reach_empty : reachable no_rows
| reach_serve db env call s :
    reachable db -> reachable (db_after (serve (route env call) db s)).

Definition ctx_ok (c : Ctx) : Prop := constraints (stored c) /\ constraints (loaded c).

(** A computation keeps the constraints on what is stored and loaded. *)
Definition keeps {A} (m : M A) : Prop := forall c, ctx_ok c -> ctx_ok (snd (m c)).

(** ** A stand-in for bcrypt *)

(** A stand-in for the library, to run the handlers on concrete inputs:
    the hash is the salt, a dollar sign and the plaintext; checking reads
    the salt back and compares. *)
Fixpoint salt_of (hashed : string) : string :=
  match hashed with
  | "" => ""
  | String c rest => if Ascii.eqb c "$" then "" else String c (salt_of rest)
  end.

Definition plain_bcrypt : Bcrypt :=
  {| hashpw := fun password salt => salt ++ "$" ++ password;
     checkpw := fun password hashed =>
       String.eqb (salt_of hashed ++ "$" ++ password) hashed |}.

(** ** A run of the service

    One account, and two reset requests seven minutes apart that happen
    to draw the same code. *)

Definition alice_row : User.t :=
  User.mk 1 "a@x.com" "salt$password1" "user" true None 2000.

Definition first_code : PasswordResetCode.t :=
  PasswordResetCode.mk "00000000-0000-0000-0000-000000000002" "a@x.com" "123456"
    360000000 60002000.

Definition second_code : PasswordResetCode.t :=
  PasswordResetCode.mk "00000000-0000-0000-0000-000000000003" "a@x.com" "123456"
    780000000 480002000.

Definition db_alice : Database := mkDatabase [alice_row] [].
Definition db_one_code : Database := mkDatabase [alice_row] [first_code].
Definition db_two_codes : Database := mkDatabase [alice_row] [first_code; second_code].

Definition alice_session : gmap string string :=
  <["email" := "a@x.com"]> (<["user_id" := "00000000-0000-0000-0000-000000000001"]> ∅).

(** ** Further responses and predicates on the stored rows *)

(** The dictionary that [me] returns for an account. *)
Definition public_projection (user : User.t) : list (string * json) :=
  [("user_id", JUuid (User.user_id user));
   ("email", JStr (User.email user));
   ("role", JStr (User.role user));
   ("is_active", JBool (User.is_active user));
   ("last_login", match User.last_login user with
                  | Some d => JTime d
                  | None => JNull
                  end);
   ("created_at", JTime (User.created_at user))].

Definition registered (user_id : N) : list (string * json) :=
  [("success", JBool true); ("message", JStr "회원가입 완료"); ("user_id", JUuid user_id)].

Definition logged_in : list (string * json) :=
  [("success", JBool true); ("message", JStr "로그인 성공")].

Definition logged_out : list (string * json) :=
  [("success", JBool true); ("message", JStr "로그아웃 완료")].

Definition password_changed : list (string * json) :=
  [("success", JBool true); ("message", JStr "비밀번호가 변경되었습니다.")].

Definition password_reset_done : list (string * json) :=
  [("success", JBool true); ("message", JStr "비밀번호가 성공적으로 재설정되었습니다.")].

Definition current_password_mismatch : string := "현재 비밀번호가 일치하지 않습니다.".

Definition new_password_too_short : string := "새 비밀번호는 8자 이상이어야 합니다.".

(** Every account has the default role and is active. *)
Definition accounts_default (db : Database) : Prop :=
  Forall (fun u => User.role u = "user" /\ User.is_active u = true) (users db).

(** What never changes of an account. *)
Definition identity_of (u : User.t) : N * string * datetime :=
  (User.user_id u, User.email u, User.created_at u).

(** * Properties *)

(** Unfolds the handler monad and the primitives of the session. *)
Ltac run_handler :=
  unfold serve, bind, ret, raise, query_user_first, query_code_latest,
    session_get, session_set, session_clear, setattr, db_add_user, db_add_code,
    db_delete, db_refresh, add_task, with_loaded, with_pending, with_session;
  cbn [stored loaded pending session background fst snd].

(** ** Updates keep the first row of a query *)

Lemma filter_map_stable {A} (p : A -> bool) (g : A -> A) (l : list A) :
  (forall x, p (g x) = p x) ->
  List.filter p (map g l) = map g (List.filter p l).
Proof.
  intros Hp. induction l as [|x l IH]; cbn; [reflexivity|].
  rewrite Hp. destruct (p x); cbn; now rewrite IH.
Qed.

(** An update that does not touch the column a query filters on gives the
    same first row, updated. *)
Lemma user_first_update_user p f db u :
  (forall v, p (f v) = p v) ->
  user_first p db = Some u ->
  user_first p (update_user (User.user_id u) f db) = Some (f u).
Proof.
  intros Hp Hu. unfold user_first, update_user in *. cbn.
  rewrite filter_map_stable.
  - destruct (List.filter p (users db)) as [|v l]; [discriminate|].
    cbn in *. injection Hu as ->. now rewrite N.eqb_refl.
  - intros v. destruct (N.eqb _ _); [apply Hp | reflexivity].
Qed.

(** ** login *)

Section Login.
Context `{Bcrypt}.

Lemma login_unknown_email env data db s :
  user_first (email_is (LoginRequest.email data)) db = None ->
  serve (login env data) db s = mkOutcome (Failed 401 invalid_credentials) db s [].
Proof.
  intros Hnone. unfold login. run_handler. rewrite Hnone. reflexivity.
Qed.

Lemma login_wrong_password env data db s u :
  user_first (email_is (LoginRequest.email data)) db = Some u ->
  checkpw (LoginRequest.password data) (User.password u) = false ->
  serve (login env data) db s = mkOutcome (Failed 401 invalid_credentials) db s [].
Proof.
  intros Hu Hpw. unfold login. run_handler. rewrite Hu. cbn.
  rewrite Hpw. reflexivity.
Qed.

Lemma login_success env data db s u :
  user_first (email_is (LoginRequest.email data)) db = Some u ->
  checkpw (LoginRequest.password data) (User.password u) = true ->
  serve (login env data) db s =
    mkOutcome (OK [("success", JBool true); ("message", JStr "로그인 성공")])
      (update_user (User.user_id u) (User.set_last_login (now env)) db)
      (<["email" := User.email u]> (<["user_id" := uuid_str (User.user_id u)]> s))
      [].
Proof.
  intros Hu Hpw. unfold login. run_handler. rewrite Hu. cbn.
  rewrite Hpw. cbn. unfold db_commit. cbn. reflexivity.
Qed.

(** What [login] does, case by case. *)
Lemma login_cases env data db s :
  match user_first (email_is (LoginRequest.email data)) db with
  | None =>
      serve (login env data) db s = mkOutcome (Failed 401 invalid_credentials) db s []
  | Some u =>
      if checkpw (LoginRequest.password data) (User.password u)
      then serve (login env data) db s =
             mkOutcome (OK [("success", JBool true); ("message", JStr "로그인 성공")])
               (update_user (User.user_id u) (User.set_last_login (now env)) db)
               (<["email" := User.email u]> (<["user_id" := uuid_str (User.user_id u)]> s))
               []
      else serve (login env data) db s = mkOutcome (Failed 401 invalid_credentials) db s []
  end.
Proof.
  destruct (user_first _ db) as [u|] eqn:Hu.
  - destruct (checkpw _ _) eqn:Hpw.
    + now apply login_success.
    + now apply login_wrong_password with u.
  - now apply login_unknown_email.
Qed.

(** C3. A login that fails because no account has the email and a login
    that fails because the stored hash does not verify against the
    password give the same outcome: the same status 401 and the same
    message, with the stored rows and the session left as they were, so
    nothing in the answer tells an unregistered email from a wrong
    password. *)
Theorem login_failures_indistinguishable env1 env2 d1 d2 db s u :
  user_first (email_is (LoginRequest.email d1)) db = None ->
  user_first (email_is (LoginRequest.email d2)) db = Some u ->
  checkpw (LoginRequest.password d2) (User.password u) = false ->
  serve (login env1 d1) db s = serve (login env2 d2) db s /\
  serve (login env1 d1) db s = mkOutcome (Failed 401 invalid_credentials) db s [].
Proof.
  intros Hnone Hsome Hpw.
  rewrite (login_unknown_email env1 d1 db s Hnone).
  rewrite (login_wrong_password env2 d2 db s u Hsome Hpw).
  split; reflexivity.
Qed.

(** C9. A login that fails, for an unknown email or for a password that
    does not verify, changes nothing: the stored rows (the [last_login] of
    every account among them) and the session are those before the call.
    A login that succeeds binds [user_id] and [email] in the session and
    sets the [last_login] of the account to the time of the call: the
    row then found under the email has this time as [last_login], and
    the id and the hash it had. *)
Theorem login_failure_changes_nothing env data db s :
  ((forall content, response (serve (login env data) db s) <> OK content) ->
   db_after (serve (login env data) db s) = db /\
   session_after (serve (login env data) db s) = s) /\
  (forall content, response (serve (login env data) db s) = OK content ->
   exists u,
     user_first (email_is (LoginRequest.email data)) db = Some u /\
     checkpw (LoginRequest.password data) (User.password u) = true /\
     session_after (serve (login env data) db s) !! "user_id"
       = Some (uuid_str (User.user_id u)) /\
     session_after (serve (login env data) db s) !! "email" = Some (User.email u) /\
     db_after (serve (login env data) db s)
       = update_user (User.user_id u) (User.set_last_login (now env)) db /\
     exists u',
       user_first (email_is (LoginRequest.email data))
         (db_after (serve (login env data) db s)) = Some u' /\
       User.last_login u' = Some (now env) /\
       User.user_id u' = User.user_id u /\
       User.email u' = User.email u /\
       User.password u' = User.password u).
Proof.
  pose proof (login_cases env data db s) as Hc.
  destruct (user_first _ db) as [u|] eqn:Hu.
  - destruct (checkpw _ _) eqn:Hpw; rewrite Hc; cbn.
    + split.
      * intros Hno. exfalso. eapply Hno. reflexivity.
      * intros content _. exists u.
        split; [reflexivity|]. split; [exact Hpw|].
        split; [rewrite lookup_insert_ne by discriminate; apply lookup_insert_eq|].
        split; [apply lookup_insert_eq|]. split; [reflexivity|].
        exists (User.set_last_login (now env) u).
        split; [now apply user_first_update_user|].
        repeat split.
    + split; [intros _; split; reflexivity | intros content Hok; discriminate].
  - rewrite Hc; cbn.
    split; [intros _; split; reflexivity | intros content Hok; discriminate].
Qed.
End Login.

(** ** Queries on lists of rows *)

Lemma head_filter_None {A} (p : A -> bool) (l : list A) :
  head (List.filter p l) = None <-> existsb p l = false.
Proof.
  induction l as [|x l IH]; cbn.
  - split; reflexivity.
  - destruct (p x); cbn; [split; discriminate | exact IH].
Qed.

Lemma head_filter_Some {A} (p : A -> bool) (l : list A) (x : A) :
  head (List.filter p l) = Some x -> In x l /\ p x = true.
Proof.
  induction l as [|y l IH]; cbn; [discriminate|].
  destruct (p y) eqn:Hy; cbn.
  - intros [= ->]. split; [now left | exact Hy].
  - intros Hx. destruct (IH Hx) as [Hin Hp]. split; [now right | exact Hp].
Qed.

Lemma head_filter_app_new {A} (p : A -> bool) (l : list A) (x : A) :
  existsb p l = false -> p x = true -> head (List.filter p (l ++ [x])) = Some x.
Proof.
  intros Hl Hx. rewrite List.filter_app. cbn. rewrite Hx.
  apply head_filter_None in Hl.
  destruct (List.filter p l); [reflexivity | discriminate].
Qed.

Lemma existsb_false_Forall {A} (p : A -> bool) (l : list A) :
  existsb p l = false <-> Forall (fun x => p x = false) l.
Proof.
  induction l as [|x l IH]; cbn.
  - split; [constructor | reflexivity].
  - rewrite orb_false_iff, IH. split.
    + intros [Hx Hl]. now constructor.
    + intros Hf. inversion Hf; subst. now split.
Qed.

(** ** me *)

Lemma me_no_session db s :
  truthy (s !! "user_id") = false ->
  serve me db s = mkOutcome (Failed 401 login_required) db s [].
Proof.
  intros Hs. unfold me. run_handler. rewrite Hs. reflexivity.
Qed.

(** C7. When the session binds an account id that resolves to no account,
    [me] fails with 401 and clears the session; a later call with the
    session it left fails with 401 as a call without session does. *)
Theorem me_orphaned_session_cleared db s :
  truthy (s !! "user_id") = true ->
  user_first (user_id_is (s !! "user_id")) db = None ->
  serve me db s = mkOutcome (Failed 401 invalid_user) db ∅ [] /\
  forall db',
    serve me db' (session_after (serve me db s))
    = mkOutcome (Failed 401 login_required) db' ∅ [].
Proof.
  intros Hs Hnone.
  assert (Hfirst : serve me db s = mkOutcome (Failed 401 invalid_user) db ∅ []).
  { unfold me. run_handler. rewrite Hs. cbn. rewrite Hnone. reflexivity. }
  split; [exact Hfirst|].
  intros db'. rewrite Hfirst. cbn [session_after].
  apply me_no_session. reflexivity.
Qed.

(** ** register *)

Section Register.
Context `{Bcrypt}.

Lemma register_email_taken env data db s u :
  user_first (email_is (RegisterRequest.email data)) db = Some u ->
  serve (register env data) db s = mkOutcome (Failed 400 email_taken) db s [].
Proof.
  intros Hu. unfold register. run_handler. rewrite Hu. reflexivity.
Qed.

Lemma register_weak_password env data db s :
  user_first (email_is (RegisterRequest.email data)) db = None ->
  (len (RegisterRequest.password data) < 8)%nat ->
  serve (register env data) db s = mkOutcome (Failed 400 weak_password) db s [].
Proof.
  intros Hu Hlen. unfold register. run_handler. rewrite Hu.
  apply Nat.ltb_lt in Hlen. rewrite Hlen. reflexivity.
Qed.

Lemma register_fresh env data db s :
  user_first (email_is (RegisterRequest.email data)) db = None ->
  (8 <= len (RegisterRequest.password data))%nat ->
  Forall (fun v => User.user_id v <> uuid4 env) (users db) ->
  serve (register env data) db s =
    mkOutcome (OK [("success", JBool true); ("message", JStr "회원가입 완료");
                   ("user_id", JUuid (uuid4 env))])
      (mkDatabase (users db ++ [new_user env data]) (password_reset_codes db)) s [].
Proof.
  intros Hu Hlen Hid. unfold register. run_handler. rewrite Hu.
  apply Nat.ltb_ge in Hlen. rewrite Hlen. cbn.
  fold (new_user env data).
  apply head_filter_None, existsb_false_Forall in Hu.
  assert (Hpk : existsb (fun v => N.eqb (User.user_id v) (uuid4 env)) (users db) = false).
  { apply existsb_false_Forall. eapply List.Forall_impl; [|exact Hid].
    intros v Hv. now apply N.eqb_neq. }
  assert (Hins : user_insertable db (new_user env data) = true).
  { unfold user_insertable. apply negb_true_iff, existsb_false_Forall.
    apply existsb_false_Forall in Hpk.
    rewrite List.Forall_forall in *. intros v Hv. cbn.
    rewrite (Hpk v Hv). cbn. apply (Hu v Hv). }
  unfold db_commit, flush. cbn. rewrite Hins. cbn.
  unfold user_first. cbn.
  rewrite head_filter_app_new; [reflexivity | exact Hpk | apply N.eqb_refl].
Qed.

(** What the service needs of the library: when the hash that [register]
    stored verifies against the password, the login that follows
    succeeds. *)
Lemma register_then_login env env' data db s s' :
  user_first (email_is (RegisterRequest.email data)) db = None ->
  (8 <= len (RegisterRequest.password data))%nat ->
  Forall (fun v => User.user_id v <> uuid4 env) (users db) ->
  checkpw (RegisterRequest.password data)
    (hashpw (RegisterRequest.password data) (gensalt env)) = true ->
  response (serve (login env' (LoginRequest.mk (RegisterRequest.email data)
                                 (RegisterRequest.password data)))
              (db_after (serve (register env data) db s)) s')
  = OK [("success", JBool true); ("message", JStr "로그인 성공")].
Proof.
  intros Hnone Hlen Hid Hpw.
  rewrite (register_fresh env data db s Hnone Hlen Hid). cbn [db_after].
  unfold login. run_handler. cbn [LoginRequest.email LoginRequest.password].
  replace (user_first (email_is (RegisterRequest.email data)) _)
    with (Some (new_user env data)).
  - cbn [User.password new_user]. rewrite Hpw. reflexivity.
  - symmetry. unfold user_first. cbn. apply head_filter_app_new.
    + now apply head_filter_None.
    + unfold email_is. cbn. apply String.eqb_refl.
Qed.

End Register.

(** ** The most recent reset code *)

Lemma head_insert_desc r l :
  head (insert_desc r l) =
  Some match head l with
       | None => r
       | Some x =>
           if (PasswordResetCode.created_at x <=? PasswordResetCode.created_at r)%Z
           then r else x
       end.
Proof.
  destruct l as [|x l]; cbn; [reflexivity|].
  destruct (_ <=? _)%Z; reflexivity.
Qed.

Lemma head_order_by_None l :
  head (order_by_created_at_desc l) = None <-> l = [].
Proof.
  destruct l as [|r l]; cbn.
  - split; reflexivity.
  - rewrite head_insert_desc. split; discriminate.
Qed.

(** The first row of the ordering is a row of the list, and none of the
    list was created later. *)
Lemma head_order_by_latest l r :
  head (order_by_created_at_desc l) = Some r ->
  In r l /\
  forall x, In x l ->
    (PasswordResetCode.created_at x <= PasswordResetCode.created_at r)%Z.
Proof.
  revert r. induction l as [|a l IH]; [discriminate|].
  intros r.
  change (order_by_created_at_desc (a :: l))
    with (insert_desc a (order_by_created_at_desc l)).
  rewrite head_insert_desc.
  destruct (head (order_by_created_at_desc l)) as [m|] eqn:Hm.
  - destruct (IH m eq_refl) as [Hin Hmax].
    destruct (PasswordResetCode.created_at m <=? PasswordResetCode.created_at a)%Z
      eqn:Hle; intros [= <-].
    + apply Z.leb_le in Hle. split; [now left|].
      intros x [<-|Hx]; [lia|]. specialize (Hmax x Hx). lia.
    + apply Z.leb_gt in Hle. split; [now right|].
      intros x [<-|Hx]; [lia|]. now apply Hmax.
  - apply head_order_by_None in Hm. subst l. intros [= <-].
    split; [now left|]. intros x [<-|[]]. lia.
Qed.

Lemma code_latest_Some p db r :
  code_latest p db = Some r ->
  In r (password_reset_codes db) /\ p r = true /\
  forall x, In x (password_reset_codes db) -> p x = true ->
    (PasswordResetCode.created_at x <= PasswordResetCode.created_at r)%Z.
Proof.
  unfold code_latest. intros Hr.
  apply head_order_by_latest in Hr. destruct Hr as [Hin Hmax].
  apply filter_In in Hin. destruct Hin as [Hin Hp].
  repeat split; [exact Hin | exact Hp |].
  intros x Hx Hpx. apply Hmax. apply filter_In. now split.
Qed.

Lemma code_latest_None p db :
  code_latest p db = None <-> existsb p (password_reset_codes db) = false.
Proof.
  unfold code_latest. rewrite head_order_by_None, <- head_filter_None.
  destruct (List.filter p _); cbn; split; (reflexivity || discriminate).
Qed.

(** ** Row updates and deletions *)

Lemma In_delete_code pk db x :
  In x (password_reset_codes (delete_code pk db)) <->
  In x (password_reset_codes db) /\ PasswordResetCode.code_id x <> pk.
Proof.
  unfold delete_code. cbn. rewrite filter_In, negb_true_iff, String.eqb_neq.
  reflexivity.
Qed.

(** With [code_id] a key, deleting by it removes one row. *)
Lemma delete_code_length l r :
  List.NoDup (map PasswordResetCode.code_id l) ->
  In r l ->
  List.length l =
  S (List.length
       (List.filter
          (fun x => negb (String.eqb (PasswordResetCode.code_id x)
                            (PasswordResetCode.code_id r))) l)).
Proof.
  induction l as [|a l IH]; cbn; [intros _ []|].
  intros Hnd Hin. apply List.NoDup_cons_iff in Hnd. destruct Hnd as [Ha Hnd].
  destruct Hin as [->|Hin].
  - rewrite String.eqb_refl. cbn. f_equal.
    f_equal. symmetry. apply forallb_filter_id. apply forallb_forall.
    intros x Hx. apply negb_true_iff, String.eqb_neq. intros Heq.
    apply Ha. rewrite <- Heq. now apply in_map.
  - destruct (String.eqb _ _) eqn:Heq; cbn.
    + apply String.eqb_eq in Heq. exfalso. apply Ha. rewrite Heq. now apply in_map.
    + f_equal. now apply IH.
Qed.

(** ** password_reset_confirm *)

Section Confirm.
Context `{Bcrypt}.

(** What [password_reset_confirm] does, case by case. *)
Lemma password_reset_confirm_cases env data db s :
  serve (password_reset_confirm env data) db s =
  match user_first (email_is (ResetPasswordConfirm.email data)) db with
  | None => mkOutcome (Failed 404 user_not_found) db s []
  | Some u =>
      if (len (ResetPasswordConfirm.new_password data) <? 8)%nat
      then mkOutcome (Failed 400 weak_password) db s []
      else
        match code_latest (code_for (ResetPasswordConfirm.email data)) db with
        | None => mkOutcome (Failed 500 internal_server_error) db s []
        | Some r =>
            mkOutcome
              (OK [("success", JBool true);
                   ("message", JStr "비밀번호가 성공적으로 재설정되었습니다.")])
              (after_confirm env data u r db) s []
        end
  end.
Proof.
  unfold password_reset_confirm. run_handler.
  destruct (user_first _ db) as [u|]; [|reflexivity].
  destruct (_ <? 8)%nat; [reflexivity|].
  destruct (code_latest _ db) as [r|]; reflexivity.
Qed.

(** The confirm never looks at the code or at the expiry of a record: with
    any record for the email in the table it succeeds and the account
    carries the hash of the new password. *)
Lemma password_reset_confirm_with_record env data db s u r :
  user_first (email_is (ResetPasswordConfirm.email data)) db = Some u ->
  (8 <= len (ResetPasswordConfirm.new_password data))%nat ->
  code_latest (code_for (ResetPasswordConfirm.email data)) db = Some r ->
  serve (password_reset_confirm env data) db s =
    mkOutcome
      (OK [("success", JBool true);
           ("message", JStr "비밀번호가 성공적으로 재설정되었습니다.")])
      (after_confirm env data u r db) s [] /\
  user_first (email_is (ResetPasswordConfirm.email data)) (after_confirm env data u r db)
    = Some (User.set_password
              (hashpw (ResetPasswordConfirm.new_password data) (gensalt env)) u).
Proof.
  intros Hu Hlen Hr. rewrite password_reset_confirm_cases, Hu, Hr.
  apply Nat.ltb_ge in Hlen. rewrite Hlen. split; [reflexivity|].
  unfold after_confirm.
  change (user_first ?p (delete_code ?k ?d)) with (user_first p d).
  now apply user_first_update_user.
Qed.

(** C1. With an account for the email, a new password of 8 characters or
    more and no reset-code record for the email, the confirm does not
    succeed: [db.delete] is called on [None] and raises, the request ends
    in a 500, and since nothing was committed the account keeps its
    former hash. *)
Theorem password_reset_confirm_without_record env data db s u :
  user_first (email_is (ResetPasswordConfirm.email data)) db = Some u ->
  (8 <= len (ResetPasswordConfirm.new_password data))%nat ->
  Forall (fun r => PasswordResetCode.email r <> ResetPasswordConfirm.email data)
    (password_reset_codes db) ->
  serve (password_reset_confirm env data) db s
    = mkOutcome (Failed 500 internal_server_error) db s [] /\
  user_first (email_is (ResetPasswordConfirm.email data))
    (db_after (serve (password_reset_confirm env data) db s)) = Some u.
Proof.
  intros Hu Hlen Hnone.
  assert (Hr : code_latest (code_for (ResetPasswordConfirm.email data)) db = None).
  { apply code_latest_None, existsb_false_Forall.
    eapply List.Forall_impl; [|exact Hnone].
    intros r Hr. now apply String.eqb_neq. }
  rewrite password_reset_confirm_cases, Hu, Hr.
  apply Nat.ltb_ge in Hlen. rewrite Hlen. split; [reflexivity | exact Hu].
Qed.

(** C10. A confirm that succeeds deletes the most recent record for the
    email and no other row: the record deleted is a row of the table
    that carries the email of the request, no row for this email was
    created later, and with [code_id] a key of the table, as it is in
    every state the service reaches, one row goes, every other row (the
    older records for the email and the records for other emails) stays,
    and while a record for the email stays a further confirm for the
    email (with a new password of 8 characters or more and at most 72
    bytes) succeeds as well. *)
Theorem password_reset_confirm_deletes_latest_only env data db s content :
  List.NoDup (map PasswordResetCode.code_id (password_reset_codes db)) ->
  response (serve (password_reset_confirm env data) db s) = OK content ->
  exists r,
    code_latest (code_for (ResetPasswordConfirm.email data)) db = Some r /\
    In r (password_reset_codes db) /\
    PasswordResetCode.email r = ResetPasswordConfirm.email data /\
    ~ In r (password_reset_codes
              (db_after (serve (password_reset_confirm env data) db s))) /\
    (forall x, In x (password_reset_codes db) ->
       PasswordResetCode.email x = ResetPasswordConfirm.email data ->
       (PasswordResetCode.created_at x <= PasswordResetCode.created_at r)%Z) /\
    (forall x, In x (password_reset_codes
                       (db_after (serve (password_reset_confirm env data) db s)))
               <-> In x (password_reset_codes db) /\ x <> r) /\
    List.length (password_reset_codes db)
      = S (List.length (password_reset_codes
                          (db_after (serve (password_reset_confirm env data) db s)))) /\
    (forall x env' data' s',
       In x (password_reset_codes db) -> x <> r ->
       PasswordResetCode.email x = ResetPasswordConfirm.email data ->
       ResetPasswordConfirm.email data' = ResetPasswordConfirm.email data ->
       (8 <= len (ResetPasswordConfirm.new_password data'))%nat ->
       (String.length (ResetPasswordConfirm.new_password data') <= 72)%nat ->
       exists content',
         response (serve (password_reset_confirm env' data')
                     (db_after (serve (password_reset_confirm env data) db s)) s')
         = OK content').
Proof.
  intros Hkey Hok. rewrite password_reset_confirm_cases in *.
  destruct (user_first _ db) as [u|] eqn:Hu; [|discriminate].
  destruct (_ <? 8)%nat eqn:Hlen; [discriminate|].
  destruct (code_latest _ db) as [r|] eqn:Hr; [|discriminate].
  cbn [db_after]. exists r.
  destruct (code_latest_Some _ _ _ Hr) as (Hin & Hmail & Hmax).
  assert (Hneq : forall x, In x (password_reset_codes db) ->
            (PasswordResetCode.code_id x <> PasswordResetCode.code_id r <-> x <> r)).
  { intros x Hx. split; [congruence|]. intros Hxr Hid. apply Hxr.
    clear - Hkey Hx Hin Hid.
    induction (password_reset_codes db) as [|a l IH]; [destruct Hx|].
    cbn in Hkey. apply List.NoDup_cons_iff in Hkey. destruct Hkey as [Ha Hl].
    destruct Hx as [->|Hx], Hin as [->|Hin]; [reflexivity | | | now apply IH].
    - exfalso. apply Ha. rewrite Hid. now apply in_map.
    - exfalso. apply Ha. rewrite <- Hid. now apply in_map. }
  split; [reflexivity|]. split; [exact Hin|].
  split; [unfold code_for in Hmail; now apply String.eqb_eq in Hmail|].
  split.
  { unfold after_confirm. rewrite In_delete_code. intros [_ Hne]. now apply Hne. }
  split.
  { intros x Hx Hm. apply Hmax; [exact Hx|]. unfold code_for.
    rewrite Hm. apply String.eqb_refl. }
  split.
  { intros x. unfold after_confirm. rewrite In_delete_code. cbn.
    split; intros [Hx Hd]; (split; [exact Hx|]); now apply (Hneq x Hx). }
  split.
  { unfold after_confirm, delete_code. cbn. now apply delete_code_length. }
  intros x env' data' s' Hx Hxr Hm Hsame Hlen' _.
  rewrite password_reset_confirm_cases, Hsame.
  assert (Hu' : user_first (email_is (ResetPasswordConfirm.email data))
                  (after_confirm env data u r db)
                = Some (User.set_password
                          (hashpw (ResetPasswordConfirm.new_password data) (gensalt env)) u)).
  { unfold after_confirm.
    change (user_first ?p (delete_code ?k ?d)) with (user_first p d).
    now apply user_first_update_user. }
  rewrite Hu'. apply Nat.ltb_ge in Hlen'. rewrite Hlen'.
  destruct (code_latest _ (after_confirm env data u r db)) as [r'|] eqn:Hr'.
  - eexists. reflexivity.
  - exfalso. apply code_latest_None, existsb_false_Forall in Hr'.
    rewrite List.Forall_forall in Hr'.
    assert (Hx' : In x (password_reset_codes (after_confirm env data u r db))).
    { unfold after_confirm. apply In_delete_code. cbn. split; [exact Hx|].
      now apply (Hneq x Hx). }
    specialize (Hr' x Hx'). unfold code_for in Hr'.
    rewrite Hm, String.eqb_refl in Hr'. discriminate.
Qed.
End Confirm.

(** ** password_reset_verify_code *)

(** What [password_reset_verify_code] does, case by case. *)
Lemma password_reset_verify_code_cases env data db s :
  serve (password_reset_verify_code env data) db s =
  match code_latest (code_is (ResetPasswordVerify.email data)
                       (ResetPasswordVerify.code data)) db with
  | None => mkOutcome (Failed 400 invalid_code) db s []
  | Some r =>
      if (PasswordResetCode.expires_at r <? now env)%Z
      then mkOutcome (Failed 400 code_expired) db s []
      else mkOutcome (OK code_verified) db s []
  end.
Proof.
  unfold password_reset_verify_code. run_handler.
  destruct (code_latest _ db) as [r|]; [|reflexivity].
  destruct (_ <? _)%Z; reflexivity.
Qed.

Lemma code_is_true email code r :
  code_is email code r = true <->
  PasswordResetCode.email r = email /\ PasswordResetCode.code r = code.
Proof.
  unfold code_is. now rewrite andb_true_iff, !String.eqb_eq.
Qed.

Lemma password_reset_verify_code_no_match env data db s :
  Forall (fun r => ~ (PasswordResetCode.email r = ResetPasswordVerify.email data /\
                      PasswordResetCode.code r = ResetPasswordVerify.code data))
    (password_reset_codes db) ->
  serve (password_reset_verify_code env data) db s
    = mkOutcome (Failed 400 invalid_code) db s [].
Proof.
  intros Hnone. rewrite password_reset_verify_code_cases.
  replace (code_latest _ db) with (@None PasswordResetCode.t); [reflexivity|].
  symmetry. apply code_latest_None, existsb_false_Forall.
  eapply List.Forall_impl; [|exact Hnone].
  intros r Hr. cbv beta in Hr. rewrite <- code_is_true in Hr.
  now destruct (code_is _ _ r).
Qed.

(** When every record matching the email and the code has expired, and
    there is one, the call fails with the expiry message whichever record
    the query returns. *)
Lemma password_reset_verify_code_all_expired env data db s x :
  In x (password_reset_codes db) ->
  code_is (ResetPasswordVerify.email data) (ResetPasswordVerify.code data) x = true ->
  (forall r, In r (password_reset_codes db) ->
     code_is (ResetPasswordVerify.email data) (ResetPasswordVerify.code data) r = true ->
     (PasswordResetCode.expires_at r < now env)%Z) ->
  serve (password_reset_verify_code env data) db s
    = mkOutcome (Failed 400 code_expired) db s [].
Proof.
  intros Hx Hpx Hall. rewrite password_reset_verify_code_cases.
  destruct (code_latest _ db) as [r|] eqn:Hr.
  - destruct (code_latest_Some _ _ _ Hr) as (Hin & Hp & _).
    specialize (Hall r Hin Hp). apply Z.ltb_lt in Hall. now rewrite Hall.
  - apply code_latest_None, existsb_false_Forall in Hr.
    rewrite List.Forall_forall in Hr. rewrite (Hr x Hx) in Hpx. discriminate.
Qed.

(** C4, as the code has it. When the record that the query returns, the
    most recently created one among those matching the email and the
    code, has its expiry before the time of the call, the call fails with
    400 and the expiry message, which is not the message for a code that
    matches nothing; it changes nothing. An expired record that a more
    recent record with the same email and code hides does not count. *)
Theorem password_reset_verify_code_latest_expired env data db s r :
  code_latest (code_is (ResetPasswordVerify.email data)
                 (ResetPasswordVerify.code data)) db = Some r ->
  (PasswordResetCode.expires_at r < now env)%Z ->
  serve (password_reset_verify_code env data) db s
    = mkOutcome (Failed 400 code_expired) db s [] /\
  code_expired <> invalid_code /\
  In r (password_reset_codes db) /\
  PasswordResetCode.email r = ResetPasswordVerify.email data /\
  PasswordResetCode.code r = ResetPasswordVerify.code data /\
  (forall x, In x (password_reset_codes db) ->
     PasswordResetCode.email x = ResetPasswordVerify.email data ->
     PasswordResetCode.code x = ResetPasswordVerify.code data ->
     (PasswordResetCode.created_at x <= PasswordResetCode.created_at r)%Z).
Proof.
  intros Hr Hexp. rewrite password_reset_verify_code_cases, Hr.
  apply Z.ltb_lt in Hexp. rewrite Hexp.
  destruct (code_latest_Some _ _ _ Hr) as (Hin & Hp & Hmax).
  apply code_is_true in Hp. destruct Hp as [Hmail Hcode].
  repeat split; try assumption; [discriminate|].
  intros x Hx Hxm Hxc. apply Hmax; [exact Hx|]. now apply code_is_true.
Qed.

(** C6. A verification that succeeds changes nothing: the stored rows,
    the matched record among them, and the session are those before the
    call, no task is scheduled, and the same email and code verify again
    on what the call left, at any time up to the expiry of the record. *)
Theorem password_reset_verify_code_no_side_effect env data db s content :
  response (serve (password_reset_verify_code env data) db s) = OK content ->
  db_after (serve (password_reset_verify_code env data) db s) = db /\
  session_after (serve (password_reset_verify_code env data) db s) = s /\
  mails (serve (password_reset_verify_code env data) db s) = [] /\
  exists r,
    code_latest (code_is (ResetPasswordVerify.email data)
                   (ResetPasswordVerify.code data)) db = Some r /\
    In r (password_reset_codes
            (db_after (serve (password_reset_verify_code env data) db s))) /\
    forall env' s',
      (now env' <= PasswordResetCode.expires_at r)%Z ->
      response (serve (password_reset_verify_code env' data)
                  (db_after (serve (password_reset_verify_code env data) db s)) s')
      = OK content.
Proof.
  rewrite password_reset_verify_code_cases.
  destruct (code_latest _ db) as [r|] eqn:Hr; [|discriminate].
  destruct (_ <? _)%Z eqn:Hexp; [discriminate|].
  cbn. intros [= <-]. repeat split. exists r.
  split; [reflexivity|]. split; [now apply (code_latest_Some _ _ _ Hr)|].
  intros env' s' Hnow. rewrite password_reset_verify_code_cases, Hr.
  apply Z.ltb_ge in Hnow. now rewrite Hnow.
Qed.

(** ** password_reset_request *)

Lemma randint_range a b d :
  (a <= b)%Z -> (a <= randint a b d <= b)%Z.
Proof.
  intros Hab. unfold randint.
  pose proof (Z.mod_pos_bound d (b - a + 1) ltac:(lia)). lia.
Qed.

Lemma randint_onto a b n :
  (a <= n <= b)%Z -> randint a b (n - a) = n.
Proof.
  intros Hn. unfold randint. rewrite Z.mod_small by lia. lia.
Qed.

(** Linear arithmetic with divisions and remainders by constants. *)
Ltac div_lia := Z.to_euclidean_division_equations; lia.

Lemma str_int_six n :
  (100000 <= n <= 999999)%Z -> str_int n = six_digits n.
Proof.
  intros Hn. unfold str_int.
  assert (Hneg : (n <? 0)%Z = false) by (apply Z.ltb_ge; lia).
  rewrite Hneg.
  assert (Hlog : (16 <= Z.log2 n)%Z).
  { apply Z.log2_le_pow2; [lia|]. change (2 ^ 16)%Z with 65536%Z. lia. }
  destruct (Z.to_nat (Z.log2 n)) as [|[|[|[|[|f]]]]] eqn:Hf; try lia.
  cbn [digits].
  replace (n / 10 / 10 / 10 / 10 / 10 / 10)%Z with (n / 1000000)%Z by div_lia.
  replace (n / 10 / 10 / 10 / 10 / 10)%Z with (n / 100000)%Z by div_lia.
  replace (n / 10 / 10 / 10 / 10)%Z with (n / 10000)%Z by div_lia.
  replace (n / 10 / 10 / 10)%Z with (n / 1000)%Z by div_lia.
  replace (n / 10 / 10)%Z with (n / 100)%Z by div_lia.
  assert (H1 : (n / 10 =? 0)%Z = false) by (apply Z.eqb_neq; div_lia).
  assert (H2 : (n / 100 =? 0)%Z = false) by (apply Z.eqb_neq; div_lia).
  assert (H3 : (n / 1000 =? 0)%Z = false) by (apply Z.eqb_neq; div_lia).
  assert (H4 : (n / 10000 =? 0)%Z = false) by (apply Z.eqb_neq; div_lia).
  assert (H5 : (n / 100000 =? 0)%Z = false) by (apply Z.eqb_neq; div_lia).
  assert (H6 : (n / 1000000 =? 0)%Z = true) by (apply Z.eqb_eq; div_lia).
  rewrite H1, H2, H3, H4, H5, H6. unfold six_digits.
  rewrite (Z.mod_small (n / 100000) 10) by div_lia. reflexivity.
Qed.

Lemma digit_is_digit d : (0 <= d <= 9)%Z -> is_digit (digit d) = true.
Proof.
  intros Hd.
  assert (Hc : (d = 0 \/ d = 1 \/ d = 2 \/ d = 3 \/ d = 4 \/ d = 5 \/ d = 6 \/
                d = 7 \/ d = 8 \/ d = 9)%Z) by lia.
  repeat (destruct Hc as [->|Hc]; [reflexivity|]). now subst d.
Qed.

Lemma digit_nonzero d : (1 <= d <= 9)%Z -> digit d <> "0"%char.
Proof.
  intros Hd.
  assert (Hc : (d = 1 \/ d = 2 \/ d = 3 \/ d = 4 \/ d = 5 \/ d = 6 \/
                d = 7 \/ d = 8 \/ d = 9)%Z) by lia.
  repeat (destruct Hc as [->|Hc]; [discriminate|]). now subst d.
Qed.

Lemma six_digits_shape n :
  (100000 <= n <= 999999)%Z ->
  String.length (six_digits n) = 6%nat /\
  all_digits (six_digits n) = true /\
  forall rest, six_digits n <> String "0" rest.
Proof.
  intros Hn. split; [reflexivity|]. split.
  - unfold six_digits. cbn [all_digits].
    rewrite !digit_is_digit; [reflexivity | div_lia ..].
  - intros rest [= H0 _]. revert H0. apply digit_nonzero. div_lia.
Qed.

(** The codes that [password_reset_request] can produce. *)
Lemma reset_code_shape d :
  let code := str_int (randint 100000 999999 d) in
  String.length code = 6%nat /\ all_digits code = true /\
  forall rest, code <> String "0" rest.
Proof.
  cbv zeta. pose proof (randint_range 100000 999999 d ltac:(lia)) as Hr.
  rewrite (str_int_six _ Hr). now apply six_digits_shape.
Qed.

(** What [password_reset_request] does, case by case. *)
Lemma password_reset_request_cases env data db s :
  serve (password_reset_request env data) db s =
  match user_first (email_is (ResetPasswordRequest.email data)) db with
  | None => mkOutcome (Failed 404 email_not_registered) db s []
  | Some _ =>
      if code_insertable db (new_code env data)
      then mkOutcome (OK code_sent)
             (mkDatabase (users db) (password_reset_codes db ++ [new_code env data]))
             s [code_mail env data]
      else mkOutcome (Failed 500 internal_server_error) db s []
  end.
Proof.
  unfold password_reset_request. run_handler.
  destruct (user_first _ db) as [u|]; [|reflexivity].
  fold (new_code env data). unfold db_commit, flush. cbn.
  destruct (code_insertable db (new_code env data)); reflexivity.
Qed.

(** Every integer of 100000..999999 is the code of some draw, and
    different integers give different codes. *)
Lemma reset_code_reaches n :
  (100000 <= n <= 999999)%Z ->
  exists d, str_int (randint 100000 999999 d) = six_digits n.
Proof.
  intros Hn. exists (n - 100000)%Z.
  rewrite randint_onto by exact Hn. now apply str_int_six.
Qed.

Lemma digit_value d : (0 <= d <= 9)%Z -> Z.of_nat (nat_of_ascii (digit d)) = (48 + d)%Z.
Proof.
  intros Hd. unfold digit. rewrite nat_ascii_embedding by lia. lia.
Qed.

Lemma six_digits_injective n m :
  (100000 <= n <= 999999)%Z -> (100000 <= m <= 999999)%Z ->
  six_digits n = six_digits m -> n = m.
Proof.
  intros Hn Hm [= E5 E4 E3 E2 E1 E0].
  apply (f_equal (fun c => Z.of_nat (nat_of_ascii c))) in E5, E4, E3, E2, E1, E0.
  rewrite !digit_value in E5, E4, E3, E2, E1, E0 by div_lia.
  div_lia.
Qed.

(** C2, as the code has it. A request that succeeds stores one new
    record whose code is the decimal writing of an integer that
    [random.randint] takes from 100000..999999: six decimal digits, the
    first of them not 0, so that no code is ever padded with zeros and
    no code lies below 100000; the expiry of the record is the time of
    the call plus five minutes, its creation time is the one of the
    database, and the same code goes out by mail. *)
Theorem password_reset_request_code env data db s content :
  response (serve (password_reset_request env data) db s) = OK content ->
  exists n,
    n = randint 100000 999999 (draw env) /\
    (100000 <= n <= 999999)%Z /\
    db_after (serve (password_reset_request env data) db s)
      = mkDatabase (users db)
          (password_reset_codes db ++
             [PasswordResetCode.mk (uuid_str (uuid4 env))
                (ResetPasswordRequest.email data) (six_digits n)
                (now env + 300000000)%Z (db_now env)]) /\
    String.length (six_digits n) = 6%nat /\
    all_digits (six_digits n) = true /\
    (forall rest, six_digits n <> String "0" rest) /\
    mails (serve (password_reset_request env data) db s)
      = [mkMail (ResetPasswordRequest.email data) "[서비스명] 비밀번호 재설정 인증코드"
           ("인증코드: " ++ six_digits n ++ newline ++ "5분 내에 입력하세요.")].
Proof.
  rewrite password_reset_request_cases.
  destruct (user_first _ db) as [u|]; [|discriminate].
  destruct (code_insertable _ _); [|discriminate].
  intros _. cbn [db_after mails].
  pose proof (randint_range 100000 999999 (draw env) ltac:(lia)) as Hr.
  exists (randint 100000 999999 (draw env)).
  destruct (six_digits_shape _ Hr) as (Hlen & Hdig & Hlead).
  unfold new_code, code_mail. rewrite (str_int_six _ Hr).
  repeat split; try assumption; lia.
Qed.

(** ** The run of the service *)

Example run_register :
  serve (@register plain_bcrypt (mkEnv 0 "salt" 1 0 2000)
           (RegisterRequest.mk "a@x.com" "password1")) no_rows ∅
  = mkOutcome (OK [("success", JBool true); ("message", JStr "회원가입 완료");
                   ("user_id", JUuid 1)]) db_alice ∅ [].
Proof. vm_compute. reflexivity. Qed.

Example run_first_request :
  db_after (serve (password_reset_request (mkEnv 60000000 "" 2 23456 60002000)
                     (ResetPasswordRequest.mk "a@x.com")) db_alice ∅)
  = db_one_code.
Proof. vm_compute. reflexivity. Qed.

Example run_second_request :
  db_after (serve (password_reset_request (mkEnv 480000000 "" 3 923456 480002000)
                     (ResetPasswordRequest.mk "a@x.com")) db_one_code ∅)
  = db_two_codes.
Proof. vm_compute. reflexivity. Qed.

Example run_login :
  session_after (serve (@login plain_bcrypt (mkEnv 30000000 "" 0 0 30002000)
                          (LoginRequest.mk "a@x.com" "password1")) db_alice ∅)
  = alice_session.
Proof. vm_compute. reflexivity. Qed.

(** Seven Korean characters are 21 bytes and one character short. *)
Example run_register_short_korean :
  len "가나다라마바사" = 7%nat /\
  String.length "가나다라마바사" = 21%nat /\
  serve (@register plain_bcrypt (mkEnv 0 "salt" 1 0 2000)
           (RegisterRequest.mk "a@x.com" "가나다라마바사")) no_rows ∅
  = mkOutcome (Failed 400 weak_password) no_rows ∅ [].
Proof. vm_compute. repeat split. Qed.

Example db_two_codes_reachable : @reachable plain_bcrypt db_two_codes.
Proof.
  rewrite <- run_second_request.
  apply (@reach_serve plain_bcrypt db_one_code (mkEnv 480000000 "" 3 923456 480002000)
           (PasswordResetRequest (ResetPasswordRequest.mk "a@x.com")) ∅).
  rewrite <- run_first_request.
  apply (@reach_serve plain_bcrypt db_alice (mkEnv 60000000 "" 2 23456 60002000)
           (PasswordResetRequest (ResetPasswordRequest.mk "a@x.com")) ∅).
  change db_alice
    with (db_after (mkOutcome (OK [("success", JBool true); ("message", JStr "회원가입 완료");
                                   ("user_id", JUuid 1)]) db_alice ∅ [])).
  rewrite <- run_register.
  apply (@reach_serve plain_bcrypt no_rows (mkEnv 0 "salt" 1 0 2000)
           (Register (RegisterRequest.mk "a@x.com" "password1")) ∅).
  apply reach_empty.
Qed.

(** ** Counterexamples *)

(** C4, as stated, fails. At the time of the call the first record, whose
    email and code are those of the call, has been expired for more than
    two minutes, and the call succeeds all the same: the query returns
    the record of the second request. *)
Lemma password_reset_verify_code_expired_record_accepted :
  In first_code (password_reset_codes db_two_codes) /\
  PasswordResetCode.email first_code = "a@x.com" /\
  PasswordResetCode.code first_code = "123456" /\
  (PasswordResetCode.expires_at first_code < 500000000)%Z /\
  response (serve (password_reset_verify_code (mkEnv 500000000 "" 0 0 500002000)
                     (ResetPasswordVerify.mk "a@x.com" "123456")) db_two_codes ∅)
  = OK code_verified.
Proof.
  split; [now left|]. repeat split.
Qed.

(** C2, as stated, fails: no request stores the code 000000. *)
Lemma password_reset_request_never_000000 :
  ~ exists env data db s content r,
      response (serve (password_reset_request env data) db s) = OK content /\
      In r (password_reset_codes (db_after (serve (password_reset_request env data) db s))) /\
      ~ In r (password_reset_codes db) /\
      PasswordResetCode.code r = "000000".
Proof.
  intros (env & data & db & s & content & r & Hok & Hin & Hnew & Hcode).
  rewrite password_reset_request_cases in Hok, Hin.
  destruct (user_first _ db) as [u|]; [|discriminate].
  destruct (code_insertable _ _); [|discriminate].
  cbn in Hin. apply in_app_or in Hin.
  destruct Hin as [Hin | [<- | []]]; [now apply Hnew|].
  pose proof (reset_code_shape (draw env)) as (_ & _ & Hlead).
  cbn in Hcode. now apply Hlead in Hcode.
Qed.

(** ** The theorems at the inputs of the run *)

Lemma password_reset_confirm_without_record_witness :
  user_first (email_is "a@x.com") db_alice = Some alice_row /\
  (8 <= len "newpass12")%nat /\
  serve (@password_reset_confirm plain_bcrypt (mkEnv 600000000 "pepper" 9 0 600002000)
           (ResetPasswordConfirm.mk "a@x.com" "newpass12")) db_alice ∅
  = mkOutcome (Failed 500 internal_server_error) db_alice ∅ [].
Proof.
  split; [reflexivity|]. split; [vm_compute; lia|].
  apply (@password_reset_confirm_without_record plain_bcrypt
           (mkEnv 600000000 "pepper" 9 0 600002000)
           (ResetPasswordConfirm.mk "a@x.com" "newpass12") db_alice ∅ alice_row).
  - reflexivity.
  - vm_compute. lia.
  - constructor.
Defined.

Lemma password_reset_request_code_witness :
  exists n,
    (100000 <= n <= 999999)%Z /\
    db_after (serve (password_reset_request (mkEnv 60000000 "" 2 23456 60002000)
                       (ResetPasswordRequest.mk "a@x.com")) db_alice ∅)
    = mkDatabase [alice_row]
        [PasswordResetCode.mk "00000000-0000-0000-0000-000000000002" "a@x.com"
           (six_digits n) 360000000 60002000].
Proof.
  destruct (password_reset_request_code (mkEnv 60000000 "" 2 23456 60002000)
              (ResetPasswordRequest.mk "a@x.com") db_alice ∅ code_sent eq_refl)
    as (n & _ & Hn & Hdb & _).
  exists n. split; [exact Hn | exact Hdb].
Defined.

Lemma login_failures_indistinguishable_witness :
  serve (@login plain_bcrypt (mkEnv 30000000 "" 0 0 30002000)
           (LoginRequest.mk "nobody@x.com" "password1")) db_alice ∅
  = serve (@login plain_bcrypt (mkEnv 30000000 "" 0 0 30002000)
             (LoginRequest.mk "a@x.com" "password2")) db_alice ∅.
Proof.
  apply (@login_failures_indistinguishable plain_bcrypt
           (mkEnv 30000000 "" 0 0 30002000) (mkEnv 30000000 "" 0 0 30002000)
           (LoginRequest.mk "nobody@x.com" "password1")
           (LoginRequest.mk "a@x.com" "password2") db_alice ∅ alice_row);
    reflexivity.
Defined.

Lemma password_reset_verify_code_latest_expired_witness :
  code_latest (code_is "a@x.com" "123456") db_one_code = Some first_code /\
  (PasswordResetCode.expires_at first_code < 500000000)%Z /\
  serve (password_reset_verify_code (mkEnv 500000000 "" 0 0 500002000)
           (ResetPasswordVerify.mk "a@x.com" "123456")) db_one_code ∅
  = mkOutcome (Failed 400 code_expired) db_one_code ∅ [].
Proof.
  split; [reflexivity|]. split; [reflexivity|].
  apply (password_reset_verify_code_latest_expired (mkEnv 500000000 "" 0 0 500002000)
           (ResetPasswordVerify.mk "a@x.com" "123456") db_one_code ∅ first_code);
    reflexivity.
Defined.


Lemma password_reset_verify_code_no_side_effect_witness :
  response (serve (password_reset_verify_code (mkEnv 500000000 "" 0 0 500002000)
                     (ResetPasswordVerify.mk "a@x.com" "123456")) db_two_codes ∅)
  = OK code_verified /\
  db_after (serve (password_reset_verify_code (mkEnv 500000000 "" 0 0 500002000)
                     (ResetPasswordVerify.mk "a@x.com" "123456")) db_two_codes ∅)
  = db_two_codes.
Proof.
  split; [reflexivity|].
  apply (password_reset_verify_code_no_side_effect (mkEnv 500000000 "" 0 0 500002000)
           (ResetPasswordVerify.mk "a@x.com" "123456") db_two_codes ∅ code_verified).
  reflexivity.
Defined.

Lemma me_orphaned_session_cleared_witness :
  truthy (alice_session !! "user_id") = true /\
  user_first (user_id_is (alice_session !! "user_id")) no_rows = None /\
  serve me no_rows alice_session = mkOutcome (Failed 401 invalid_user) no_rows ∅ [].
Proof.
  split; [reflexivity|]. split; [reflexivity|].
  apply (me_orphaned_session_cleared no_rows alice_session); reflexivity.
Defined.

Lemma login_failure_changes_nothing_witness :
  db_after (serve (@login plain_bcrypt (mkEnv 30000000 "" 0 0 30002000)
                     (LoginRequest.mk "a@x.com" "password2")) db_alice alice_session)
  = db_alice /\
  session_after (serve (@login plain_bcrypt (mkEnv 30000000 "" 0 0 30002000)
                          (LoginRequest.mk "a@x.com" "password2")) db_alice alice_session)
  = alice_session.
Proof.
  apply (proj1 (@login_failure_changes_nothing plain_bcrypt (mkEnv 30000000 "" 0 0 30002000)
                  (LoginRequest.mk "a@x.com" "password2") db_alice alice_session)).
  intros content. vm_compute. discriminate.
Defined.

Lemma password_reset_confirm_deletes_latest_only_witness :
  exists r,
    code_latest (code_for "a@x.com") db_two_codes = Some r /\
    List.length (password_reset_codes db_two_codes)
    = S (List.length (password_reset_codes
           (db_after (serve (@password_reset_confirm plain_bcrypt
                               (mkEnv 600000000 "pepper" 9 0 600002000)
                               (ResetPasswordConfirm.mk "a@x.com" "newpass12"))
                        db_two_codes ∅)))).
Proof.
  destruct (@password_reset_confirm_deletes_latest_only plain_bcrypt
              (mkEnv 600000000 "pepper" 9 0 600002000)
              (ResetPasswordConfirm.mk "a@x.com" "newpass12") db_two_codes ∅
              [("success", JBool true);
               ("message", JStr "비밀번호가 성공적으로 재설정되었습니다.")])
    as (r & Hr & _ & _ & _ & _ & _ & Hlen & _).
  - cbn. repeat constructor; cbn; intuition discriminate.
  - reflexivity.
  - exists r. split; [exact Hr | exact Hlen].
Defined.

(** * The constraints of the tables hold in every state the service reaches *)

Lemma keeps_ret {A} (a : A) : keeps (ret a).
Proof. intros c Hc. exact Hc. Qed.

Lemma keeps_raise {A} e : keeps (@raise A e).
Proof. intros c Hc. exact Hc. Qed.

Lemma keeps_bind {A B} (m : M A) (k : A -> M B) :
  keeps m -> (forall a, keeps (k a)) -> keeps (bind m k).
Proof.
  intros Hm Hk c Hc. unfold bind. specialize (Hm c Hc).
  destruct (m c) as [[a|e] c']; cbn in *; [now apply Hk | exact Hm].
Qed.

Lemma NoDup_snoc {A} (l : list A) (x : A) :
  List.NoDup l -> ~ In x l -> List.NoDup (l ++ [x]).
Proof.
  intros Hl Hx. induction l as [|a l IH]; cbn.
  - constructor; [intros [] | constructor].
  - apply List.NoDup_cons_iff in Hl. destruct Hl as [Ha Hl].
    constructor.
    + rewrite in_app_iff. intros [Hin | [<- | []]]; [now apply Ha|].
      apply Hx. now left.
    + apply IH; [exact Hl|]. intros Hin. apply Hx. now right.
Qed.

Lemma NoDup_map_filter {A B} (f : A -> B) (p : A -> bool) (l : list A) :
  List.NoDup (map f l) -> List.NoDup (map f (List.filter p l)).
Proof.
  induction l as [|a l IH]; cbn; [trivial|].
  intros Hnd. apply List.NoDup_cons_iff in Hnd. destruct Hnd as [Ha Hl].
  destruct (p a); cbn; [|now apply IH].
  constructor; [|now apply IH].
  intros Hin. apply Ha. apply in_map_iff in Hin. destruct Hin as (x & Hfx & Hx).
  apply filter_In in Hx. apply in_map_iff. exists x. now split.
Qed.

Lemma constraints_update_user pk f db :
  (forall u, User.user_id (f u) = User.user_id u /\ User.email (f u) = User.email u) ->
  constraints db -> constraints (update_user pk f db).
Proof.
  intros Hf (Hid & Hmail & Hcode). unfold constraints, update_user. cbn.
  rewrite !map_map.
  rewrite (map_ext (fun u => User.user_id (if N.eqb (User.user_id u) pk then f u else u))
             User.user_id)
    by (intros u; destruct (N.eqb _ _); [apply Hf | reflexivity]).
  rewrite (map_ext (fun u => User.email (if N.eqb (User.user_id u) pk then f u else u))
             User.email)
    by (intros u; destruct (N.eqb _ _); [apply Hf | reflexivity]).
  now repeat split.
Qed.

Lemma constraints_delete_code pk db :
  constraints db -> constraints (delete_code pk db).
Proof.
  intros (Hid & Hmail & Hcode). unfold constraints, delete_code. cbn.
  repeat split; [exact Hid | exact Hmail |]. now apply NoDup_map_filter.
Qed.

Lemma flush_users_constraints new db db' :
  constraints db -> flush_users new db = Some db' -> constraints db'.
Proof.
  revert db. induction new as [|u new IH]; cbn; intros db Hdb.
  - now intros [= <-].
  - destruct (user_insertable db u) eqn:Hins; [|discriminate].
    apply IH. destruct Hdb as (Hid & Hmail & Hcode).
    unfold user_insertable in Hins.
    apply negb_true_iff, existsb_false_Forall in Hins.
    rewrite List.Forall_forall in Hins.
    unfold constraints. cbn. rewrite !map_app. cbn.
    repeat split; [| | exact Hcode].
    + apply NoDup_snoc; [exact Hid|]. intros Hin.
      apply in_map_iff in Hin. destruct Hin as (v & Hv & Hin).
      specialize (Hins v Hin). apply orb_false_iff in Hins.
      destruct Hins as [Hne _]. apply N.eqb_neq in Hne. now apply Hne.
    + apply NoDup_snoc; [exact Hmail|]. intros Hin.
      apply in_map_iff in Hin. destruct Hin as (v & Hv & Hin).
      specialize (Hins v Hin). apply orb_false_iff in Hins.
      destruct Hins as [_ Hne]. apply String.eqb_neq in Hne. now apply Hne.
Qed.

Lemma flush_codes_constraints new db db' :
  constraints db -> flush_codes new db = Some db' -> constraints db'.
Proof.
  revert db. induction new as [|r new IH]; cbn; intros db Hdb.
  - now intros [= <-].
  - destruct (code_insertable db r) eqn:Hins; [|discriminate].
    apply IH. destruct Hdb as (Hid & Hmail & Hcode).
    unfold code_insertable in Hins.
    apply negb_true_iff, existsb_false_Forall in Hins.
    rewrite List.Forall_forall in Hins.
    unfold constraints. cbn. rewrite !map_app. cbn.
    repeat split; [exact Hid | exact Hmail |].
    apply NoDup_snoc; [exact Hcode|]. intros Hin.
    apply in_map_iff in Hin. destruct Hin as (v & Hv & Hin).
    specialize (Hins v Hin). apply String.eqb_neq in Hins. now apply Hins.
Qed.

Lemma keeps_db_commit : keeps db_commit.
Proof.
  intros c [Hs Hl]. unfold db_commit, flush.
  destruct (flush_users _ _) as [db1|] eqn:H1; [|now split].
  destruct (flush_codes _ _) as [db2|] eqn:H2; [|now split].
  cbn. assert (constraints db2); [|now split].
  eapply flush_codes_constraints; [|exact H2].
  eapply flush_users_constraints; [exact Hl | exact H1].
Qed.

Lemma keeps_setattr user f :
  (forall u, User.user_id (f u) = User.user_id u /\ User.email (f u) = User.email u) ->
  keeps (setattr user f).
Proof.
  intros Hf c [Hs Hl]. split; [exact Hs|]. cbn.
  now apply constraints_update_user.
Qed.

Lemma keeps_db_delete record : keeps (db_delete record).
Proof.
  intros c [Hs Hl]. destruct record as [r|]; [|now split].
  split; [exact Hs|]. cbn. now apply constraints_delete_code.
Qed.

Lemma keeps_same_rows {A} (m : M A) :
  (forall c, stored (snd (m c)) = stored c /\ loaded (snd (m c)) = loaded c) ->
  keeps m.
Proof.
  intros Hm c [Hs Hl]. destruct (Hm c) as [Es El].
  unfold ctx_ok. now rewrite Es, El.
Qed.

(** Follows a handler through its binds and branches. *)
Ltac keeps_step :=
  first
    [ apply keeps_ret
    | apply keeps_raise
    | apply keeps_db_commit
    | apply keeps_db_delete
    | apply keeps_setattr; intros u; split; reflexivity
    | apply keeps_same_rows; intros c; split; reflexivity
    | apply keeps_bind; [|intros ?]
    | match goal with
      | |- keeps (match ?x with _ => _ end) => destruct x
      | |- keeps (if ?b then _ else _) => destruct b
      end ].

Lemma keeps_db_refresh user : keeps (db_refresh user).
Proof.
  intros c Hc. unfold db_refresh. destruct (user_first _ _); exact Hc.
Qed.

Lemma keeps_route `{Bcrypt} env call : keeps (route env call).
Proof.
  destruct call; cbn [route];
    unfold check_email, register, login, logout, me, change_password,
      password_reset_request, password_reset_verify_code, password_reset_confirm;
    cbv zeta; repeat (apply keeps_db_refresh || keeps_step).
Qed.

(** Serving a request keeps the constraints on the stored rows. *)
Lemma serve_constraints (h : M (list (string * json))) db s :
  keeps h -> constraints db -> constraints (db_after (serve h db s)).
Proof.
  intros Hh Hdb. unfold serve.
  specialize (Hh (mkCtx db db no_rows s []) (conj Hdb Hdb)).
  destruct (h _) as [[content|[st d| | |]] c]; cbn in *; apply Hh.
Qed.

(** In every state that the service reaches from empty tables, no two
    accounts share a [user_id], no two accounts share an email and no two
    reset codes share a [code_id]. *)
Lemma reachable_constraints `{Bcrypt} db : reachable db -> constraints db.
Proof.
  induction 1 as [|db env call s Hreach IH].
  - repeat split; constructor.
  - apply serve_constraints; [apply keeps_route | exact IH].
Qed.

(** * Every handler, case by case *)

Lemma check_email_cases email db s :
  serve (check_email email) db s =
  match user_first (email_is email) db with
  | None =>
      mkOutcome (OK [("available", JBool true);
                     ("message", JStr "사용 가능한 이메일입니다.")]) db s []
  | Some _ =>
      mkOutcome (OK [("available", JBool false);
                     ("message", JStr "이미 사용 중인 이메일입니다.")]) db s []
  end.
Proof.
  unfold check_email. run_handler. destruct (user_first _ db); reflexivity.
Qed.

Lemma logout_cases db s : serve logout db s = mkOutcome (OK logged_out) db ∅ [].
Proof. reflexivity. Qed.

Lemma me_cases db s :
  serve me db s =
  if truthy (s !! "user_id")
  then match user_first (user_id_is (s !! "user_id")) db with
       | None => mkOutcome (Failed 401 invalid_user) db ∅ []
       | Some u => mkOutcome (OK (public_projection u)) db s []
       end
  else mkOutcome (Failed 401 login_required) db s [].
Proof.
  unfold me. run_handler. destruct (truthy _); [|reflexivity]. cbn.
  destruct (user_first _ db); reflexivity.
Qed.

Lemma existsb_same {A} (p q : A -> bool) (l : list A) :
  Forall (fun x => p x = q x) l -> existsb p l = existsb q l.
Proof.
  induction 1 as [|x l Hx _ IH]; cbn; [reflexivity|]. now rewrite Hx, IH.
Qed.

Section Cases.
Context `{Bcrypt}.

Lemma register_cases env data db s :
  serve (register env data) db s =
  match user_first (email_is (RegisterRequest.email data)) db with
  | Some _ => mkOutcome (Failed 400 email_taken) db s []
  | None =>
      if (len (RegisterRequest.password data) <? 8)%nat
      then mkOutcome (Failed 400 weak_password) db s []
      else if existsb (fun v => N.eqb (User.user_id v) (uuid4 env)) (users db)
      then mkOutcome (Failed 500 internal_server_error) db s []
      else mkOutcome (OK (registered (uuid4 env)))
             (mkDatabase (users db ++ [new_user env data]) (password_reset_codes db))
             s []
  end.
Proof.
  destruct (user_first _ db) as [u|] eqn:Hu.
  - now apply register_email_taken with u.
  - destruct (_ <? 8)%nat eqn:Hlen.
    + apply register_weak_password; [exact Hu | now apply Nat.ltb_lt].
    + destruct (existsb _ (users db)) eqn:Hpk.
      * unfold register. run_handler. rewrite Hu, Hlen. cbn.
        fold (new_user env data). unfold db_commit, flush. cbn.
        assert (Hins : user_insertable db (new_user env data) = false).
        { unfold user_insertable. apply negb_false_iff.
          apply existsb_exists in Hpk. destruct Hpk as (v & Hv & Hid).
          apply existsb_exists. exists v. split; [exact Hv|]. cbn.
          now rewrite Hid. }
        now rewrite Hins.
      * apply register_fresh; [exact Hu | now apply Nat.ltb_ge |].
        apply existsb_false_Forall in Hpk.
        eapply List.Forall_impl; [|exact Hpk].
        intros v Hv. now apply N.eqb_neq.
Qed.

Lemma change_password_cases env data db s :
  serve (change_password env data) db s =
  if truthy (s !! "user_id")
  then match user_first (user_id_is (s !! "user_id")) db with
       | None => mkOutcome (Failed 404 user_not_found) db s []
       | Some u =>
           if checkpw (ChangePasswordRequest.current_password data) (User.password u)
           then if (len (ChangePasswordRequest.new_password data) <? 8)%nat
                then mkOutcome (Failed 400 new_password_too_short) db s []
                else mkOutcome (OK password_changed)
                       (update_user (User.user_id u)
                          (User.set_password
                             (hashpw (ChangePasswordRequest.new_password data)
                                (gensalt env))) db)
                       s []
           else mkOutcome (Failed 400 current_password_mismatch) db s []
       end
  else mkOutcome (Failed 401 login_required) db s [].
Proof.
  unfold change_password. run_handler. destruct (truthy _); [|reflexivity]. cbn.
  destruct (user_first _ db) as [u|]; [|reflexivity].
  destruct (checkpw _ _); [|reflexivity]. cbv [negb].
  change (len (ChangePasswordRequest.new_password data) <=? 7)%nat
    with (len (ChangePasswordRequest.new_password data) <? 8)%nat.
  destruct (len (ChangePasswordRequest.new_password data) <? 8)%nat;
    reflexivity.
Qed.
End Cases.

(** * What holds of every request *)

Lemma login_outcome `{Bcrypt} env data db s :
  serve (login env data) db s =
  match user_first (email_is (LoginRequest.email data)) db with
  | None => mkOutcome (Failed 401 invalid_credentials) db s []
  | Some u =>
      if checkpw (LoginRequest.password data) (User.password u)
      then mkOutcome (OK logged_in)
             (update_user (User.user_id u) (User.set_last_login (now env)) db)
             (<["email" := User.email u]> (<["user_id" := uuid_str (User.user_id u)]> s))
             []
      else mkOutcome (Failed 401 invalid_credentials) db s []
  end.
Proof.
  pose proof (login_cases env data db s) as Hc.
  destruct (user_first _ db) as [u|]; [|exact Hc].
  destruct (checkpw _ _); exact Hc.
Qed.

(** Rewrites the served route into its cases and splits them. *)
Ltac route_cases call :=
  destruct call; cbn [route];
  rewrite ?check_email_cases, ?register_cases, ?login_outcome, ?logout_cases,
    ?me_cases, ?change_password_cases, ?password_reset_request_cases,
    ?password_reset_verify_code_cases, ?password_reset_confirm_cases;
  repeat match goal with
         | |- context [match ?x with _ => _ end] => destruct x eqn:?
         end;
  cbn [response db_after session_after mails].

Section EveryRequest.
Context `{Bcrypt}.

(** A request that is answered with an error stores nothing and sends
    nothing: whatever the route and whatever the error, a 500 among them,
    the stored rows are those before the call. *)
Theorem failed_request_stores_nothing env call db s status detail :
  response (serve (route env call) db s) = Failed status detail ->
  db_after (serve (route env call) db s) = db /\
  mails (serve (route env call) db s) = [].
Proof.
  route_cases call; intros Hr; try discriminate Hr; split; reflexivity.
Qed.

(** Who touches the session, and how. After a login that succeeds
    [request.session] is the session before with [user_id] and [email]
    set to those of the account that logged in; after [logout] it is
    empty; after [me] it is empty when the bound id resolves to no
    account; after anything else, the failures of [login] among it, it
    is the session before. *)
Theorem session_changes env call db s :
  session_after (serve (route env call) db s) =
  match call with
  | Login data =>
      match user_first (email_is (LoginRequest.email data)) db with
      | Some u =>
          if checkpw (LoginRequest.password data) (User.password u)
          then <["email" := User.email u]>
                 (<["user_id" := uuid_str (User.user_id u)]> s)
          else s
      | None => s
      end
  | Logout => ∅
  | Me =>
      if truthy (s !! "user_id")
      then match user_first (user_id_is (s !! "user_id")) db with
           | None => ∅
           | Some _ => s
           end
      else s
  | _ => s
  end.
Proof.
  route_cases call; reflexivity.
Qed.

(** How a request changes the rows of [users]: the rows before are all
    still there, in place, each with its id, email, creation time, role
    and active flag; a register appends the new account; the hash of a
    row changes only under [change_password] and
    [password_reset_confirm], its [last_login] only under [login]. *)
Lemma route_users env call db s :
  exists g new,
    users (db_after (serve (route env call) db s)) = (map g (users db) ++ new)%list /\
    (forall u, identity_of (g u) = identity_of u /\
               User.role (g u) = User.role u /\
               User.is_active (g u) = User.is_active u) /\
    (new = [] \/ exists data, call = Register data /\ new = [new_user env data]) /\
    ((forall d, call <> ChangePassword d) -> (forall d, call <> PasswordResetConfirm d) ->
     forall u, User.password (g u) = User.password u) /\
    ((forall d, call <> Login d) -> forall u, User.last_login (g u) = User.last_login u).
Proof.
  assert (Hid : forall l : list User.t, l = (map (fun u => u) l ++ [])%list)
    by (intros l; now rewrite map_id, app_nil_r).
  route_cases call;
    first
      [ (* nothing changed *)
        exists (fun u => u), []; split; [apply Hid|];
        split; [intros u; repeat split|];
        split; [now left|]; split; intros; reflexivity
      | (* a registration *)
        exists (fun u => u), [new_user env data]; split; [cbn; now rewrite map_id|];
        split; [intros u; repeat split|];
        split; [right; now exists data|]; split; intros; reflexivity
      | (* an update by primary key *)
        unfold after_confirm, delete_code, update_user; cbn [users];
        eexists _, []; split; [rewrite app_nil_r; reflexivity|];
        split; [intros u; destruct (N.eqb _ _); repeat split|];
        split; [now left|];
        split;
        [ intros Hc Hr u; destruct (N.eqb _ _); [|reflexivity];
          first [ reflexivity
                | exfalso; eapply Hc; reflexivity
                | exfalso; eapply Hr; reflexivity ]
        | intros Hl u; destruct (N.eqb _ _); [|reflexivity];
          first [ reflexivity | exfalso; eapply Hl; reflexivity ] ] ].
Qed.

(** How a request changes the rows of [password_reset_codes]. *)
Lemma route_codes env call db s :
  password_reset_codes (db_after (serve (route env call) db s))
  = password_reset_codes db \/
  (exists data,
     call = PasswordResetRequest data /\
     password_reset_codes (db_after (serve (route env call) db s))
     = (password_reset_codes db ++ [new_code env data])%list) \/
  (exists data r,
     call = PasswordResetConfirm data /\
     code_latest (code_for (ResetPasswordConfirm.email data)) db = Some r /\
     password_reset_codes (db_after (serve (route env call) db s))
     = List.filter (fun x => negb (String.eqb (PasswordResetCode.code_id x)
                                     (PasswordResetCode.code_id r)))
         (password_reset_codes db)).
Proof.
  route_cases call; try (left; reflexivity).
  - right. left. now exists data.
  - right. right. eexists _, _. repeat split; eassumption.
Qed.
(** No request deletes an account or changes what identifies it: the
    rows of [users] before the call are still there after it, in the same
    order, each with its id, its email and its creation time; rows are
    only added at the end. *)
Theorem accounts_never_deleted env call db s :
  exists new,
    map identity_of (users (db_after (serve (route env call) db s)))
    = (map identity_of (users db) ++ new)%list.
Proof.
  destruct (route_users env call db s) as (g & new & Hu & Hg & _).
  exists (map identity_of new). rewrite Hu, map_app, map_map. f_equal.
  apply map_ext. intros u. apply Hg.
Qed.

(** The stored hash of an account changes under [change_password] and
    [password_reset_confirm] only: after any other request every account
    that was there has the hash it had. *)
Theorem hash_changed_by_password_routes_only env call db s :
  (forall d, call <> ChangePassword d) ->
  (forall d, call <> PasswordResetConfirm d) ->
  exists new,
    map (fun u => (User.user_id u, User.password u))
      (users (db_after (serve (route env call) db s)))
    = (map (fun u => (User.user_id u, User.password u)) (users db) ++ new)%list.
Proof.
  intros Hc Hr.
  destruct (route_users env call db s) as (g & new & Hu & Hg & _ & Hpw & _).
  exists (map (fun u => (User.user_id u, User.password u)) new).
  rewrite Hu, map_app, map_map. f_equal.
  apply map_ext. intros u. rewrite (Hpw Hc Hr u).
  destruct (Hg u) as [Hi _]. unfold identity_of in Hi. now injection Hi as -> _ _.
Qed.

(** One request keeps every account on the default role and active. *)
Lemma route_accounts_default env call db s :
  accounts_default db -> accounts_default (db_after (serve (route env call) db s)).
Proof.
  unfold accounts_default. intros Hdb.
  destruct (route_users env call db s) as (g & new & -> & Hg & Hnew & _).
  apply Forall_app. split.
  - rewrite List.Forall_forall in *. intros x Hx.
    apply in_map_iff in Hx. destruct Hx as (u & <- & Hu).
    destruct (Hg u) as (_ & -> & ->). now apply Hdb.
  - destruct Hnew as [-> | (data & _ & ->)]; [constructor|].
    now repeat constructor.
Qed.

(** In every state that the service reaches from empty tables, each
    account has the role [user] and is active: no route changes the role
    or the active flag that [register] sets. *)
Theorem reachable_accounts_default db : reachable db -> accounts_default db.
Proof.
  induction 1 as [|db env call s _ IH]; [constructor|].
  now apply route_accounts_default.
Qed.
End EveryRequest.

(** * The reset flow, step after step *)

Lemma code_latest_snoc_other p db n :
  p n = false ->
  code_latest p (mkDatabase (users db) (password_reset_codes db ++ [n]))
  = code_latest p db.
Proof.
  intros Hn. unfold code_latest. cbn. rewrite List.filter_app. cbn.
  now rewrite Hn, app_nil_r.
Qed.

Lemma code_latest_of_match p db x :
  In x (password_reset_codes db) -> p x = true ->
  exists r, code_latest p db = Some r.
Proof.
  intros Hx Hp. destruct (code_latest p db) as [r|] eqn:Hr; [now exists r|].
  apply code_latest_None, existsb_false_Forall in Hr.
  rewrite List.Forall_forall in Hr. rewrite (Hr x Hx) in Hp. discriminate.
Qed.

(** A code that was just issued verifies for five minutes. After a
    request that succeeds at time [now env] of the process, when the
    clock of the database has passed the creation time of every older
    record with the same email and code, verifying the email with the
    code that the request drew succeeds at every time up to [now env]
    plus five minutes, whether those older records have expired or
    not. *)
Theorem issued_code_verifies env data db s content env' s' :
  response (serve (password_reset_request env data) db s) = OK content ->
  (forall x, In x (password_reset_codes db) ->
     PasswordResetCode.email x = ResetPasswordRequest.email data ->
     PasswordResetCode.code x = str_int (randint 100000 999999 (draw env)) ->
     (PasswordResetCode.created_at x < db_now env)%Z) ->
  (now env' <= now env + timedelta_minutes 5)%Z ->
  response
    (serve (password_reset_verify_code env'
              (ResetPasswordVerify.mk (ResetPasswordRequest.email data)
                 (str_int (randint 100000 999999 (draw env)))))
       (db_after (serve (password_reset_request env data) db s)) s')
  = OK code_verified.
Proof.
  intros Hok Holder Hnow.
  rewrite password_reset_request_cases in *.
  destruct (user_first _ db) as [u|]; [|discriminate].
  destruct (code_insertable _ _); [|discriminate].
  cbn [db_after] in *. rewrite password_reset_verify_code_cases.
  cbn [ResetPasswordVerify.email ResetPasswordVerify.code].
  set (p := code_is _ _).
  assert (Hnew : p (new_code env data) = true).
  { subst p. apply code_is_true. split; reflexivity. }
  assert (Hin : In (new_code env data)
                  (password_reset_codes
                     (mkDatabase (users db)
                        (password_reset_codes db ++ [new_code env data])))).
  { cbn. apply in_or_app. right. now left. }
  destruct (code_latest_of_match p _ _ Hin Hnew) as [r Hr]. rewrite Hr.
  destruct (code_latest_Some _ _ _ Hr) as (Hrin & Hpr & Hmax).
  specialize (Hmax _ Hin Hnew). cbn in Hmax, Hrin.
  apply in_app_or in Hrin. destruct Hrin as [Hold | [<- | []]].
  - exfalso. apply code_is_true in Hpr. destruct Hpr as [Hm Hc]. cbn in Hm, Hc.
    specialize (Holder r Hold Hm Hc). lia.
  - cbn [PasswordResetCode.expires_at new_code].
    replace (now env + timedelta_minutes 5 <? now env')%Z with false; [reflexivity|].
    symmetry. apply Z.ltb_ge. lia.
Qed.

(** Issuing a code invalidates no other code: whatever a verification
    of an email and a code answers before a request, it answers after
    it, as soon as the email or the code differs from what the request
    issued. *)
Theorem request_keeps_other_codes env data db s env' data' s1 s2 :
  ResetPasswordVerify.email data' <> ResetPasswordRequest.email data \/
  ResetPasswordVerify.code data' <> str_int (randint 100000 999999 (draw env)) ->
  response (serve (password_reset_verify_code env' data')
              (db_after (serve (password_reset_request env data) db s)) s2)
  = response (serve (password_reset_verify_code env' data') db s1).
Proof.
  intros Hother. rewrite password_reset_request_cases.
  rewrite !password_reset_verify_code_cases.
  destruct (user_first _ db) as [u|];
    [|cbn [db_after]; destruct (code_latest _ db) as [r|]; [destruct (_ <? _)%Z|];
      reflexivity].
  destruct (code_insertable _ _); cbn [db_after].
  - rewrite code_latest_snoc_other.
    + destruct (code_latest _ db) as [r|]; [destruct (_ <? _)%Z|]; reflexivity.
    + destruct (code_is _ _ (new_code env data)) eqn:Hm; [|reflexivity].
      apply code_is_true in Hm. cbn in Hm. destruct Hm as [Hm1 Hm2].
      destruct Hother as [Hne | Hne]; exfalso; apply Hne; congruence.
  - destruct (code_latest _ db) as [r|]; [destruct (_ <? _)%Z|]; reflexivity.
Qed.

Section ConfirmFlow.
Context `{Bcrypt}.

(** The confirm asks for no valid code. With an account for the email, a
    new password of 8 characters or more (and of at most 72 bytes) and
    any record for the email in the table, expired or not, verified or
    not, it succeeds; the row then found under the email has the hash of
    the new password, and the id and the email it had; the session is
    untouched. *)
Theorem password_reset_confirm_needs_no_valid_code env data db s u x :
  user_first (email_is (ResetPasswordConfirm.email data)) db = Some u ->
  (8 <= len (ResetPasswordConfirm.new_password data))%nat ->
  (String.length (ResetPasswordConfirm.new_password data) <= 72)%nat ->
  In x (password_reset_codes db) ->
  PasswordResetCode.email x = ResetPasswordConfirm.email data ->
  response (serve (password_reset_confirm env data) db s) = OK password_reset_done /\
  (exists u',
     user_first (email_is (ResetPasswordConfirm.email data))
       (db_after (serve (password_reset_confirm env data) db s)) = Some u' /\
     User.password u'
     = hashpw (ResetPasswordConfirm.new_password data) (gensalt env) /\
     User.user_id u' = User.user_id u /\
     User.email u' = User.email u /\
     User.last_login u' = User.last_login u) /\
  session_after (serve (password_reset_confirm env data) db s) = s.
Proof.
  intros Hu Hlen _ Hx Hmail.
  destruct (code_latest_of_match (code_for (ResetPasswordConfirm.email data)) db x Hx)
    as [r Hr].
  { unfold code_for. rewrite Hmail. apply String.eqb_refl. }
  destruct (password_reset_confirm_with_record env data db s u r Hu Hlen Hr)
    as [Hserve Hfirst].
  rewrite Hserve. cbn [response db_after session_after].
  split; [reflexivity|]. split; [|reflexivity].
  eexists. split; [exact Hfirst|]. repeat split.
Qed.

(** After a confirm that succeeded, a login with the email answers by
    the new hash alone: it succeeds exactly when the password verifies
    against the hash of the new password. *)
Theorem password_reset_confirm_then_login env data db s content env' password s' :
  response (serve (password_reset_confirm env data) db s) = OK content ->
  response (serve (login env' (LoginRequest.mk (ResetPasswordConfirm.email data) password))
              (db_after (serve (password_reset_confirm env data) db s)) s')
  = if checkpw password (hashpw (ResetPasswordConfirm.new_password data) (gensalt env))
    then OK logged_in
    else Failed 401 invalid_credentials.
Proof.
  intros Hok. rewrite password_reset_confirm_cases in *.
  destruct (user_first _ db) as [u|] eqn:Hu; [|discriminate].
  destruct (_ <? 8)%nat eqn:Hlen; [discriminate|].
  destruct (code_latest _ db) as [r|] eqn:Hr; [|discriminate].
  cbn [db_after]. apply Nat.ltb_ge in Hlen.
  destruct (password_reset_confirm_with_record env data db s u r Hu Hlen Hr)
    as [_ Hfirst].
  rewrite login_outcome. cbn [LoginRequest.email LoginRequest.password].
  rewrite Hfirst. cbn [User.password User.set_password].
  destruct (checkpw _ _); reflexivity.
Qed.

(** The record that a confirm deleted no longer verifies: when no other
    record for the email carries its code, verifying the email with that
    code after the confirm fails as a code that matches nothing. *)
Theorem consumed_code_no_longer_verifies env data db s content r env' s' :
  response (serve (password_reset_confirm env data) db s) = OK content ->
  code_latest (code_for (ResetPasswordConfirm.email data)) db = Some r ->
  (forall x, In x (password_reset_codes db) ->
     PasswordResetCode.email x = ResetPasswordConfirm.email data ->
     PasswordResetCode.code x = PasswordResetCode.code r ->
     PasswordResetCode.code_id x = PasswordResetCode.code_id r) ->
  response (serve (password_reset_verify_code env'
                     (ResetPasswordVerify.mk (ResetPasswordConfirm.email data)
                        (PasswordResetCode.code r)))
              (db_after (serve (password_reset_confirm env data) db s)) s')
  = Failed 400 invalid_code.
Proof.
  intros Hok Hr Honly. rewrite password_reset_confirm_cases in *.
  destruct (user_first _ db) as [u|] eqn:Hu; [|discriminate].
  destruct (_ <? 8)%nat eqn:Hlen; [discriminate|].
  rewrite Hr in *. cbn [db_after].
  rewrite password_reset_verify_code_no_match; [reflexivity|].
  apply List.Forall_forall. intros x Hx [Hm Hc].
  cbn in Hm, Hc. unfold after_confirm in Hx. apply In_delete_code in Hx.
  destruct Hx as [Hx Hne]. apply Hne. now apply Honly.
Qed.
End ConfirmFlow.

(** * The string of a UUID *)

Lemma string_app_cons (x : ascii) (a b : string) :
  String x a ++ b = String x (a ++ b).
Proof. reflexivity. Qed.

Lemma string_length_app (a b : string) :
  String.length (a ++ b) = (String.length a + String.length b)%nat.
Proof.
  induction a as [|c a IH]; [reflexivity|].
  rewrite string_app_cons. cbn [String.length]. now rewrite IH.
Qed.

Lemma string_app_assoc (a b c : string) : (a ++ b) ++ c = a ++ (b ++ c).
Proof.
  induction a as [|x a IH]; [reflexivity|].
  rewrite !string_app_cons. now rewrite IH.
Qed.

Lemma string_app_nil_r (a : string) : a ++ "" = a.
Proof.
  induction a as [|x a IH]; [reflexivity|].
  rewrite string_app_cons. now rewrite IH.
Qed.

Lemma string_app_inj (a b c d : string) :
  String.length a = String.length b -> a ++ c = b ++ d -> a = b /\ c = d.
Proof.
  revert b. induction a as [|x a IH]; intros [|y b]; try discriminate.
  - intros _ Hcd. now split.
  - rewrite !string_app_cons. intros [= Hlen] [= -> Hrest].
    destruct (IH b Hlen Hrest) as [-> ->]. now split.
Qed.

Lemma hex_length w n : String.length (hex w n) = w.
Proof.
  revert n. induction w as [|w IH]; intros n; cbn [hex]; [reflexivity|].
  rewrite string_length_app, IH. cbn [String.length]. lia.
Qed.

Lemma hex_value_digit n : (n < 16)%N -> hex_value (hex_digit n) = n.
Proof.
  intros Hn. rewrite <- (N2Nat.id n).
  assert (Hk : (N.to_nat n < 16)%nat) by lia.
  revert Hk. generalize (N.to_nat n) as k. intros k Hk.
  do 16 (destruct k as [|k]; [reflexivity|]). lia.
Qed.

Lemma hex_digit_inj a b :
  (a < 16)%N -> (b < 16)%N -> hex_digit a = hex_digit b -> a = b.
Proof.
  intros Ha Hb Hab. apply (f_equal hex_value) in Hab.
  now rewrite !hex_value_digit in Hab.
Qed.

(** The digits determine the number up to the width. *)
Lemma hex_inj w a b :
  hex w a = hex w b ->
  (a mod 2 ^ (4 * N.of_nat w) = b mod 2 ^ (4 * N.of_nat w))%N.
Proof.
  revert a b. induction w as [|w IH]; intros a b Hab.
  - cbn. now rewrite !N.mod_1_r.
  - cbn [hex] in Hab.
    apply string_app_inj in Hab; [|now rewrite !hex_length].
    destruct Hab as [Hhigh [= Hlow]].
    apply IH in Hhigh. rewrite !N.shiftr_div_pow2 in Hhigh.
    apply hex_digit_inj in Hlow;
      [|change 15%N with (N.ones 4); rewrite N.land_ones; now apply N.mod_lt ..].
    change 15%N with (N.ones 4) in Hlow. rewrite !N.land_ones in Hlow.
    replace (4 * N.of_nat (S w))%N with (4 + 4 * N.of_nat w)%N by lia.
    rewrite N.pow_add_r, !N.Div0.mod_mul_r. now rewrite Hhigh, Hlow.
Qed.

Lemma hex_app a b n :
  hex (a + b) n = hex a (N.shiftr n (4 * N.of_nat b)) ++ hex b n.
Proof.
  revert n. induction b as [|b IH]; intros n.
  - rewrite Nat.add_0_r. cbn [hex N.of_nat]. rewrite N.mul_0_r, N.shiftr_0_r.
    now rewrite string_app_nil_r.
  - rewrite Nat.add_succ_r. cbn [hex]. rewrite IH, string_app_assoc, N.shiftr_shiftr.
    replace (4 + 4 * N.of_nat b)%N with (4 * N.of_nat (S b))%N by lia.
    reflexivity.
Qed.

Lemma hex32_pieces u :
  hex 32 u =
  hex 8 (N.shiftr u 96) ++ hex 4 (N.shiftr u 80) ++ hex 4 (N.shiftr u 64) ++
  hex 4 (N.shiftr u 48) ++ hex 12 u.
Proof.
  rewrite (hex_app 8 24 u : hex 32 u = _).
  rewrite (hex_app 4 20 u : hex 24 u = _).
  rewrite (hex_app 4 16 u : hex 20 u = _).
  rewrite (hex_app 4 12 u : hex 16 u = _).
  change (4 * N.of_nat 24)%N with 96%N. change (4 * N.of_nat 20)%N with 80%N.
  change (4 * N.of_nat 16)%N with 64%N. change (4 * N.of_nat 12)%N with 48%N.
  reflexivity.
Qed.

Lemma uuid_str_length u : String.length (uuid_str u) = 36%nat.
Proof.
  unfold uuid_str. rewrite !string_length_app, !hex_length. reflexivity.
Qed.


Lemma uuid_str_spelled u :
  uuid_str u =
  hex 8 (N.shiftr u 96) ++ String "-" (hex 4 (N.shiftr u 80) ++ String "-"
   (hex 4 (N.shiftr u 64) ++ String "-" (hex 4 (N.shiftr u 48) ++ String "-" (hex 12 u)))).
Proof. reflexivity. Qed.

Lemma peel w a b r1 r2 :
  hex w a ++ String "-" r1 = hex w b ++ String "-" r2 ->
  hex w a = hex w b /\ r1 = r2.
Proof.
  intros Heq. apply string_app_inj in Heq; [|now rewrite !hex_length].
  destruct Heq as [Ha [= Hr]]. now split.
Qed.

Lemma uuid_str_inj u v :
  (u < 2 ^ 128)%N -> (v < 2 ^ 128)%N ->
  uuid_str u = uuid_str v ->
  u = v /\ truthy (Some (uuid_str u)) = true.
Proof.
  intros Hu Hv Huv. split.
  - assert (H32 : hex 32 u = hex 32 v).
    { rewrite (hex32_pieces u), (hex32_pieces v). rewrite !uuid_str_spelled in Huv.
      apply peel in Huv. destruct Huv as [H1 Huv].
      apply peel in Huv. destruct Huv as [H2 Huv].
      apply peel in Huv. destruct Huv as [H3 Huv].
      apply peel in Huv. destruct Huv as [H4 Huv].
      rewrite H1, H2, H3, H4, Huv. reflexivity. }
    apply hex_inj in H32. change (4 * N.of_nat 32)%N with 128%N in H32.
    rewrite !N.mod_small in H32 by assumption. exact H32.
  - pose proof (uuid_str_length u) as Hlen.
    destruct (uuid_str u); [discriminate | reflexivity].
Qed.

(** [str] tells any two UUIDs apart, is always 36 characters long and so
    never the empty string: the id that [login] keeps in the session
    counts as a bound id and names one account. *)
Theorem uuid_str_injective u v :
  (u < 2 ^ 128)%N -> (v < 2 ^ 128)%N ->
  uuid_str u = uuid_str v ->
  u = v /\ String.length (uuid_str u) = 36%nat /\ truthy (Some (uuid_str u)) = true.
Proof.
  intros Hu Hv Huv. destruct (uuid_str_inj u v Hu Hv Huv) as [Heq Ht].
  split; [exact Heq|]. split; [apply uuid_str_length | exact Ht].
Qed.

(** * Sessions and passwords across requests *)

Lemma head_filter_unique {A B} (key : A -> B) (p : A -> bool) (l : list A) (u : A) :
  List.NoDup (map key l) ->
  In u l ->
  (forall v, In v l -> p v = true -> key v = key u) ->
  p u = true ->
  head (List.filter p l) = Some u.
Proof.
  intros Hnd Hu Hkey Hp. induction l as [|a l IH]; [destruct Hu|].
  cbn in Hnd. apply List.NoDup_cons_iff in Hnd. destruct Hnd as [Ha Hnd].
  cbn [List.filter]. destruct Hu as [-> | Hu].
  - now rewrite Hp.
  - destruct (p a) eqn:Hpa.
    + exfalso. apply Ha. rewrite (Hkey a (or_introl eq_refl) Hpa). now apply in_map.
    + apply IH; [exact Hnd | exact Hu |].
      intros v Hv. apply Hkey. now right.
Qed.

Lemma user_first_In p db u : user_first p db = Some u -> In u (users db) /\ p u = true.
Proof. apply head_filter_Some. Qed.

Section AcrossRequests.
Context `{Bcrypt}.

(** After a login that succeeded, [me] with the session that the login
    left answers with the id, email, role, active flag and creation time
    of the account that logged in and with the time of the login as
    [last_login], and changes nothing; ids are 128-bit values and
    [user_id] is a key of the table. *)
Theorem login_then_me env data db s content :
  List.NoDup (map User.user_id (users db)) ->
  Forall (fun v => (User.user_id v < 2 ^ 128)%N) (users db) ->
  response (serve (login env data) db s) = OK content ->
  exists u,
    user_first (email_is (LoginRequest.email data)) db = Some u /\
    serve me (db_after (serve (login env data) db s))
      (session_after (serve (login env data) db s))
    = mkOutcome
        (OK [("user_id", JUuid (User.user_id u));
             ("email", JStr (User.email u));
             ("role", JStr (User.role u));
             ("is_active", JBool (User.is_active u));
             ("last_login", JTime (now env));
             ("created_at", JTime (User.created_at u))])
        (db_after (serve (login env data) db s))
        (session_after (serve (login env data) db s)) [].
Proof.
  intros Hkey Hbits Hok. rewrite login_outcome in *.
  destruct (user_first _ db) as [u|] eqn:Hu; [|discriminate].
  destruct (checkpw _ _); [|discriminate].
  exists u. split; [reflexivity|]. cbn [db_after session_after].
  destruct (user_first_In _ _ _ Hu) as [Hin _].
  rewrite List.Forall_forall in Hbits.
  rewrite me_cases.
  rewrite lookup_insert_ne by discriminate. rewrite lookup_insert_eq.
  destruct (uuid_str_inj (User.user_id u) (User.user_id u)
              (Hbits u Hin) (Hbits u Hin) eq_refl) as [_ ->].
  rewrite (user_first_update_user _ (User.set_last_login (now env)) db u);
    [reflexivity | reflexivity |].
  apply head_filter_unique with (key := User.user_id).
  - exact Hkey.
  - exact Hin.
  - intros v Hv Hp. cbn in Hp. apply String.eqb_eq in Hp.
    now apply (uuid_str_inj _ _ (Hbits v Hv) (Hbits u Hin)).
  - cbn. apply String.eqb_refl.
Qed.

(** After [logout], whatever the session was, [me] and
    [change_password] answer that a login is required. *)
Theorem logout_ends_session env data db s db' :
  serve me db' (session_after (serve logout db s))
  = mkOutcome (Failed 401 login_required) db' ∅ [] /\
  serve (change_password env data) db' (session_after (serve logout db s))
  = mkOutcome (Failed 401 login_required) db' ∅ [].
Proof.
  rewrite logout_cases, me_cases, change_password_cases. split; reflexivity.
Qed.

(** After a register that succeeded, a login with the email succeeds
    exactly when the password verifies against the hash that the
    register stored. *)
Theorem register_then_login_outcome env data db s content env' password s' :
  response (serve (register env data) db s) = OK content ->
  response (serve (login env' (LoginRequest.mk (RegisterRequest.email data) password))
              (db_after (serve (register env data) db s)) s')
  = if checkpw password (hashpw (RegisterRequest.password data) (gensalt env))
    then OK logged_in
    else Failed 401 invalid_credentials.
Proof.
  intros Hok. rewrite register_cases in *.
  destruct (user_first _ db) as [u|] eqn:Hu; [discriminate|].
  destruct (_ <? 8)%nat; [discriminate|].
  destruct (existsb _ _); [discriminate|].
  cbn [db_after]. rewrite login_outcome.
  cbn [LoginRequest.email LoginRequest.password].
  replace (user_first (email_is (RegisterRequest.email data)) _)
    with (Some (new_user env data)).
  - cbn [User.password new_user]. destruct (checkpw _ _); reflexivity.
  - symmetry. unfold user_first. cbn [users]. apply head_filter_app_new.
    + now apply head_filter_None.
    + unfold email_is. cbn. apply String.eqb_refl.
Qed.

(** After a [change_password] that succeeded, a login with the email of
    the account succeeds exactly when the password verifies against the
    hash of the new password: the former password opens the account only
    if it verifies against the new hash. Emails are unique. *)
Theorem change_password_then_login env data db s content :
  List.NoDup (map User.email (users db)) ->
  response (serve (change_password env data) db s) = OK content ->
  exists u,
    user_first (user_id_is (s !! "user_id")) db = Some u /\
    checkpw (ChangePasswordRequest.current_password data) (User.password u) = true /\
    session_after (serve (change_password env data) db s) = s /\
    forall env' password s',
      response (serve (login env' (LoginRequest.mk (User.email u) password))
                  (db_after (serve (change_password env data) db s)) s')
      = if checkpw password
             (hashpw (ChangePasswordRequest.new_password data) (gensalt env))
        then OK logged_in
        else Failed 401 invalid_credentials.
Proof.
  intros Hmail Hok. rewrite change_password_cases in *.
  destruct (truthy _); [|discriminate].
  destruct (user_first _ db) as [u|] eqn:Hu; [|discriminate].
  destruct (checkpw _ (User.password u)) eqn:Hpw; [|discriminate].
  destruct (_ <? 8)%nat; [discriminate|].
  exists u. split; [reflexivity|]. split; [exact Hpw|]. split; [reflexivity|].
  intros env' password s'. cbn [db_after]. rewrite login_outcome.
  cbn [LoginRequest.email LoginRequest.password].
  destruct (user_first_In _ _ _ Hu) as [Hin _].
  rewrite (user_first_update_user _ _ db u); [| reflexivity |].
  - cbn [User.password User.set_password].
    destruct (checkpw password _); reflexivity.
  - apply head_filter_unique with (key := User.email).
    + exact Hmail.
    + exact Hin.
    + intros v _ Hv. now apply String.eqb_eq in Hv.
    + apply String.eqb_refl.
Qed.

(** The failures of [change_password], in the order the handler tests
    them: no bound id, 401; a bound id that resolves to no account, 404;
    a current password that does not verify, 400, even when the new
    password is too short as well; a new password under 8 characters,
    400. None changes the stored rows, and none touches the session: the
    404 leaves the orphaned id bound, where [me] clears it. *)
Theorem change_password_failures env data db s :
  (truthy (s !! "user_id") = false ->
   serve (change_password env data) db s
   = mkOutcome (Failed 401 login_required) db s []) /\
  (truthy (s !! "user_id") = true ->
   user_first (user_id_is (s !! "user_id")) db = None ->
   serve (change_password env data) db s
   = mkOutcome (Failed 404 user_not_found) db s [] /\
   session_after (serve me db s) = ∅) /\
  (forall u,
     truthy (s !! "user_id") = true ->
     user_first (user_id_is (s !! "user_id")) db = Some u ->
     checkpw (ChangePasswordRequest.current_password data) (User.password u) = false ->
     serve (change_password env data) db s
     = mkOutcome (Failed 400 current_password_mismatch) db s []) /\
  (forall u,
     truthy (s !! "user_id") = true ->
     user_first (user_id_is (s !! "user_id")) db = Some u ->
     checkpw (ChangePasswordRequest.current_password data) (User.password u) = true ->
     (len (ChangePasswordRequest.new_password data) < 8)%nat ->
     serve (change_password env data) db s
     = mkOutcome (Failed 400 new_password_too_short) db s []).
Proof.
  rewrite change_password_cases, me_cases.
  split; [now intros ->|]. split; [now intros -> ->|].
  split.
  - intros u -> -> Hpw. now rewrite Hpw.
  - intros u -> -> Hpw Hlen. apply Nat.ltb_lt in Hlen. now rewrite Hpw, Hlen.
Qed.

(** [check_email] and [register] agree: the email is reported as not
    available exactly when a register with it fails because the email
    exists, whatever the password; and [check_email] changes nothing. *)
Theorem check_email_agrees_with_register env data db s :
  db_after (serve (check_email (RegisterRequest.email data)) db s) = db /\
  session_after (serve (check_email (RegisterRequest.email data)) db s) = s /\
  (response (serve (check_email (RegisterRequest.email data)) db s)
   = OK [("available", JBool false); ("message", JStr "이미 사용 중인 이메일입니다.")]
   <-> response (serve (register env data) db s) = Failed 400 email_taken) /\
  (response (serve (check_email (RegisterRequest.email data)) db s)
   = OK [("available", JBool true); ("message", JStr "사용 가능한 이메일입니다.")]
   <-> response (serve (register env data) db s) <> Failed 400 email_taken).
Proof.
  rewrite check_email_cases, register_cases.
  destruct (user_first _ db) as [u|]; cbn [db_after session_after response].
  - repeat split; try reflexivity; try discriminate. intros Hne. now elim Hne.
  - destruct (_ <? 8)%nat; [|destruct (existsb _ _)];
      cbn [response]; repeat split; try reflexivity; discriminate.
Qed.
End AcrossRequests.


(** * Routes that only read, and routes that write the reset codes *)

Section ReadAndWrite.
Context `{Bcrypt}.

(** [check_email], [me], [logout] and [password_reset_verify_code] never
    write to the database and never schedule a mail, whatever they
    answer. *)
Theorem read_only_routes env call db s :
  (exists email, call = CheckEmail email) \/ call = Me \/ call = Logout \/
  (exists data, call = PasswordResetVerifyCode data) ->
  db_after (serve (route env call) db s) = db /\
  mails (serve (route env call) db s) = [].
Proof.
  intros [[email ->] | [-> | [-> | [data ->]]]]; cbn [route];
    rewrite ?check_email_cases, ?me_cases, ?logout_cases,
      ?password_reset_verify_code_cases;
    repeat match goal with
           | |- context [match ?x with _ => _ end] => destruct x
           end;
    split; reflexivity.
Qed.

(** The table of reset codes is written by two routes only. A request
    that succeeds appends one row, with the email of the request, the
    code drawn, the expiry at five minutes from the call and a fresh
    id, and keeps every row that was there; a confirm that succeeds
    removes the rows with the [code_id] of the latest record for its
    email; a request of any kind that is answered with an error, and any
    request to another route, leaves the table as it is. *)
Theorem reset_codes_written_by_two_routes env call db s :
  (forall data content,
     call = PasswordResetRequest data ->
     response (serve (route env call) db s) = OK content ->
     password_reset_codes (db_after (serve (route env call) db s))
     = (password_reset_codes db ++
          [PasswordResetCode.mk (uuid_str (uuid4 env)) (ResetPasswordRequest.email data)
             (str_int (randint 100000 999999 (draw env)))
             (now env + timedelta_minutes 5)%Z (db_now env)])%list) /\
  (forall data content,
     call = PasswordResetConfirm data ->
     response (serve (route env call) db s) = OK content ->
     exists r,
       code_latest (code_for (ResetPasswordConfirm.email data)) db = Some r /\
       In r (password_reset_codes db) /\
       PasswordResetCode.email r = ResetPasswordConfirm.email data /\
       password_reset_codes (db_after (serve (route env call) db s))
       = List.filter (fun x => negb (String.eqb (PasswordResetCode.code_id x)
                                       (PasswordResetCode.code_id r)))
           (password_reset_codes db)) /\
  (forall status detail,
     response (serve (route env call) db s) = Failed status detail ->
     password_reset_codes (db_after (serve (route env call) db s))
     = password_reset_codes db) /\
  ((forall data, call <> PasswordResetRequest data) ->
   (forall data, call <> PasswordResetConfirm data) ->
   password_reset_codes (db_after (serve (route env call) db s))
   = password_reset_codes db).
Proof.
  split; [|split; [|split]].
  - intros data content -> Hok. cbn [route] in *.
    rewrite password_reset_request_cases in *.
    destruct (user_first _ db); [|discriminate].
    destruct (code_insertable _ _); [reflexivity | discriminate].
  - intros data content -> Hok. cbn [route] in *.
    rewrite password_reset_confirm_cases in *.
    destruct (user_first _ db) as [u|]; [|discriminate].
    destruct (_ <? 8)%nat; [discriminate|].
    destruct (code_latest _ db) as [r|] eqn:Hr; [|discriminate].
    exists r. destruct (code_latest_Some _ _ _ Hr) as (Hin & Hmail & _).
    split; [reflexivity|]. split; [exact Hin|].
    split; [unfold code_for in Hmail; now apply String.eqb_eq in Hmail|].
    reflexivity.
  - route_cases call; intros status detail Hr; try discriminate Hr; reflexivity.
  - intros Hreq Hconf.
    destruct (route_codes env call db s)
      as [Hsame | [(data & -> & _) | (data & r & -> & _)]].
    + exact Hsame.
    + now elim (Hreq data).
    + now elim (Hconf data).
Qed.
End ReadAndWrite.

(** * The further theorems at the inputs of the run *)

Lemma failed_request_stores_nothing_witness :
  db_after (serve (@route plain_bcrypt (mkEnv 600000000 "pepper" 9 0 600002000)
                     (PasswordResetConfirm (ResetPasswordConfirm.mk "a@x.com" "newpass12")))
              db_alice ∅) = db_alice /\
  mails (serve (@route plain_bcrypt (mkEnv 600000000 "pepper" 9 0 600002000)
                  (PasswordResetConfirm (ResetPasswordConfirm.mk "a@x.com" "newpass12")))
           db_alice ∅) = [].
Proof.
  apply (@failed_request_stores_nothing plain_bcrypt (mkEnv 600000000 "pepper" 9 0 600002000)
           (PasswordResetConfirm (ResetPasswordConfirm.mk "a@x.com" "newpass12"))
           db_alice ∅ 500 internal_server_error).
  reflexivity.
Defined.

Lemma hash_changed_by_password_routes_only_witness :
  exists new,
    map (fun u => (User.user_id u, User.password u))
      (users (db_after (serve (@route plain_bcrypt (mkEnv 30000000 "" 0 0 30002000)
                                 (Login (LoginRequest.mk "a@x.com" "password1")))
                          db_alice ∅)))
    = (map (fun u => (User.user_id u, User.password u)) (users db_alice) ++ new)%list.
Proof.
  apply (@hash_changed_by_password_routes_only plain_bcrypt (mkEnv 30000000 "" 0 0 30002000)
           (Login (LoginRequest.mk "a@x.com" "password1")) db_alice ∅);
    intros d; discriminate.
Defined.

Lemma reachable_constraints_witness : constraints db_two_codes.
Proof.
  apply (@reachable_constraints plain_bcrypt db_two_codes).
  apply db_two_codes_reachable.
Defined.

Lemma reachable_accounts_default_witness : accounts_default db_two_codes.
Proof.
  apply (@reachable_accounts_default plain_bcrypt db_two_codes).
  apply db_two_codes_reachable.
Defined.

Lemma issued_code_verifies_witness :
  In first_code (password_reset_codes db_one_code) /\
  PasswordResetCode.code first_code = str_int (randint 100000 999999 923456) /\
  (PasswordResetCode.expires_at first_code < 700000000)%Z /\
  response
    (serve (password_reset_verify_code (mkEnv 700000000 "" 0 0 700002000)
              (ResetPasswordVerify.mk "a@x.com"
                 (str_int (randint 100000 999999 923456))))
       (db_after (serve (password_reset_request (mkEnv 480000000 "" 3 923456 480002000)
                           (ResetPasswordRequest.mk "a@x.com")) db_one_code ∅)) ∅)
  = OK code_verified.
Proof.
  split; [now left|]. split; [reflexivity|]. split; [reflexivity|].
  apply (issued_code_verifies (mkEnv 480000000 "" 3 923456 480002000)
           (ResetPasswordRequest.mk "a@x.com") db_one_code ∅ code_sent
           (mkEnv 700000000 "" 0 0 700002000) ∅).
  - reflexivity.
  - intros x [<- | []] _ _. reflexivity.
  - vm_compute. discriminate.
Defined.

Lemma request_keeps_other_codes_witness :
  response (serve (password_reset_verify_code (mkEnv 500000000 "" 0 0 500002000)
                     (ResetPasswordVerify.mk "a@x.com" "123456"))
              (db_after (serve (password_reset_request (mkEnv 480000000 "" 3 5 480002000)
                                  (ResetPasswordRequest.mk "a@x.com")) db_one_code ∅)) ∅)
  = response (serve (password_reset_verify_code (mkEnv 500000000 "" 0 0 500002000)
                       (ResetPasswordVerify.mk "a@x.com" "123456")) db_one_code ∅).
Proof.
  apply (request_keeps_other_codes (mkEnv 480000000 "" 3 5 480002000)
           (ResetPasswordRequest.mk "a@x.com") db_one_code ∅
           (mkEnv 500000000 "" 0 0 500002000) (ResetPasswordVerify.mk "a@x.com" "123456") ∅ ∅).
  right. vm_compute. discriminate.
Defined.

Lemma password_reset_confirm_needs_no_valid_code_witness :
  (PasswordResetCode.expires_at first_code < 900000000)%Z /\
  response (serve (@password_reset_confirm plain_bcrypt
                     (mkEnv 900000000 "pepper" 9 0 900002000)
                     (ResetPasswordConfirm.mk "a@x.com" "newpass12")) db_one_code ∅)
  = OK password_reset_done /\
  exists u',
    user_first (email_is "a@x.com")
      (db_after (serve (@password_reset_confirm plain_bcrypt
                          (mkEnv 900000000 "pepper" 9 0 900002000)
                          (ResetPasswordConfirm.mk "a@x.com" "newpass12"))
                   db_one_code ∅)) = Some u' /\
    User.password u' = "pepper$newpass12".
Proof.
  split; [reflexivity|].
  destruct (@password_reset_confirm_needs_no_valid_code plain_bcrypt
              (mkEnv 900000000 "pepper" 9 0 900002000)
              (ResetPasswordConfirm.mk "a@x.com" "newpass12") db_one_code ∅
              alice_row first_code)
    as (Hok & (u' & Hu' & Hpw & _) & _).
  - reflexivity.
  - vm_compute. lia.
  - vm_compute. lia.
  - now left.
  - reflexivity.
  - split; [exact Hok|]. exists u'. split; [exact Hu' | exact Hpw].
Defined.

Lemma password_reset_confirm_then_login_witness :
  response (serve (@login plain_bcrypt (mkEnv 950000000 "" 0 0 950002000)
                     (LoginRequest.mk "a@x.com" "password1"))
              (db_after (serve (@password_reset_confirm plain_bcrypt
                                  (mkEnv 900000000 "pepper" 9 0 900002000)
                                  (ResetPasswordConfirm.mk "a@x.com" "newpass12"))
                           db_one_code ∅)) ∅)
  = Failed 401 invalid_credentials.
Proof.
  apply (@password_reset_confirm_then_login plain_bcrypt (mkEnv 900000000 "pepper" 9 0 900002000)
           (ResetPasswordConfirm.mk "a@x.com" "newpass12") db_one_code ∅
           password_reset_done (mkEnv 950000000 "" 0 0 950002000) "password1" ∅).
  reflexivity.
Defined.

Lemma consumed_code_no_longer_verifies_witness :
  response (serve (password_reset_verify_code (mkEnv 200000000 "" 0 0 200002000)
                     (ResetPasswordVerify.mk "a@x.com" "123456"))
              (db_after (serve (@password_reset_confirm plain_bcrypt
                                  (mkEnv 100000000 "pepper" 9 0 100002000)
                                  (ResetPasswordConfirm.mk "a@x.com" "newpass12"))
                           db_one_code ∅)) ∅)
  = Failed 400 invalid_code.
Proof.
  apply (@consumed_code_no_longer_verifies plain_bcrypt (mkEnv 100000000 "pepper" 9 0 100002000)
           (ResetPasswordConfirm.mk "a@x.com" "newpass12") db_one_code ∅
           password_reset_done first_code (mkEnv 200000000 "" 0 0 200002000) ∅).
  - reflexivity.
  - reflexivity.
  - intros x [<- | []] _ _. reflexivity.
Defined.

Lemma uuid_str_injective_witness :
  uuid_str 1 = "00000000-0000-0000-0000-000000000001" /\
  String.length (uuid_str 1) = 36%nat.
Proof.
  split; [reflexivity|].
  apply (uuid_str_injective 1 1); [reflexivity | reflexivity | reflexivity].
Defined.

Lemma login_then_me_witness :
  exists u,
    user_first (email_is "a@x.com") db_alice = Some u /\
    response (serve me
                (db_after (serve (@login plain_bcrypt (mkEnv 30000000 "" 0 0 30002000)
                                    (LoginRequest.mk "a@x.com" "password1")) db_alice ∅))
                (session_after (serve (@login plain_bcrypt
                                         (mkEnv 30000000 "" 0 0 30002000)
                                         (LoginRequest.mk "a@x.com" "password1"))
                                  db_alice ∅)))
    = OK [("user_id", JUuid (User.user_id u));
          ("email", JStr (User.email u));
          ("role", JStr (User.role u));
          ("is_active", JBool (User.is_active u));
          ("last_login", JTime 30000000);
          ("created_at", JTime (User.created_at u))].
Proof.
  destruct (@login_then_me plain_bcrypt (mkEnv 30000000 "" 0 0 30002000)
              (LoginRequest.mk "a@x.com" "password1") db_alice ∅ logged_in)
    as (u & Hu & Hme).
  - cbn. repeat constructor. intros [].
  - repeat constructor.
  - reflexivity.
  - exists u. split; [exact Hu|]. now rewrite Hme.
Defined.

Lemma register_then_login_outcome_witness :
  response (serve (@login plain_bcrypt (mkEnv 30000000 "" 0 0 30002000)
                     (LoginRequest.mk "a@x.com" "password1"))
              (db_after (serve (@register plain_bcrypt (mkEnv 0 "salt" 1 0 2000)
                                  (RegisterRequest.mk "a@x.com" "password1"))
                           no_rows ∅)) ∅)
  = OK logged_in.
Proof.
  apply (@register_then_login_outcome plain_bcrypt (mkEnv 0 "salt" 1 0 2000)
           (RegisterRequest.mk "a@x.com" "password1") no_rows ∅ (registered 1)
           (mkEnv 30000000 "" 0 0 30002000) "password1" ∅).
  reflexivity.
Defined.

Lemma change_password_then_login_witness :
  exists u,
    user_first (user_id_is (alice_session !! "user_id")) db_alice = Some u /\
    response (serve (@login plain_bcrypt (mkEnv 50000000 "" 0 0 50002000)
                       (LoginRequest.mk (User.email u) "password1"))
                (db_after (serve (@change_password plain_bcrypt
                                    (mkEnv 40000000 "pepper" 0 0 40002000)
                                    (ChangePasswordRequest.mk "password1" "newpass12"))
                             db_alice alice_session)) ∅)
    = Failed 401 invalid_credentials.
Proof.
  destruct (@change_password_then_login plain_bcrypt (mkEnv 40000000 "pepper" 0 0 40002000)
              (ChangePasswordRequest.mk "password1" "newpass12") db_alice alice_session
              password_changed)
    as (u & Hu & _ & _ & Hlogin).
  - cbn. repeat constructor. intros [].
  - reflexivity.
  - exists u. split; [exact Hu|].
    apply (Hlogin (mkEnv 50000000 "" 0 0 50002000) "password1" ∅).
Defined.

Lemma change_password_failures_witness :
  serve (@change_password plain_bcrypt (mkEnv 40000000 "pepper" 0 0 40002000)
           (ChangePasswordRequest.mk "password1" "newpass12")) no_rows alice_session
  = mkOutcome (Failed 404 user_not_found) no_rows alice_session [] /\
  session_after (serve me no_rows alice_session) = ∅.
Proof.
  apply (proj1 (proj2 (@change_password_failures plain_bcrypt
                         (mkEnv 40000000 "pepper" 0 0 40002000)
                         (ChangePasswordRequest.mk "password1" "newpass12")
                         no_rows alice_session))); reflexivity.
Defined.

Lemma read_only_routes_witness :
  db_after (serve (@route plain_bcrypt (mkEnv 0 "" 0 0 2000) Me) db_alice alice_session)
  = db_alice /\
  mails (serve (@route plain_bcrypt (mkEnv 0 "" 0 0 2000) Me) db_alice alice_session) = [].
Proof.
  apply (@read_only_routes plain_bcrypt (mkEnv 0 "" 0 0 2000) Me db_alice alice_session).
  right. now left.
Defined.

Lemma reset_codes_written_by_two_routes_witness :
  password_reset_codes
    (db_after (serve (@route plain_bcrypt (mkEnv 60000000 "" 2 23456 60002000)
                        (PasswordResetRequest (ResetPasswordRequest.mk "a@x.com")))
                 db_alice ∅))
  = [first_code] /\
  password_reset_codes
    (db_after (serve (@route plain_bcrypt (mkEnv 60000000 "" 2 23456 60002000)
                        (PasswordResetRequest (ResetPasswordRequest.mk "nobody@x.com")))
                 db_one_code ∅))
  = [first_code].
Proof.
  split.
  - apply (proj1 (@reset_codes_written_by_two_routes plain_bcrypt
                    (mkEnv 60000000 "" 2 23456 60002000)
                    (PasswordResetRequest (ResetPasswordRequest.mk "a@x.com"))
                    db_alice ∅)
             (ResetPasswordRequest.mk "a@x.com") code_sent); reflexivity.
  - apply (proj1 (proj2 (proj2 (@reset_codes_written_by_two_routes plain_bcrypt
                                  (mkEnv 60000000 "" 2 23456 60002000)
                                  (PasswordResetRequest
                                     (ResetPasswordRequest.mk "nobody@x.com"))
                                  db_one_code ∅)))
             404%Z email_not_registered); reflexivity.
Defined.

